(** * lista_size.c — listing the files of the current directory with their sizes

    A shallow embedding of [main] from
    "Sistemas Operativos Avanzados/01 Programación en Windows: Tamaño de
    Ficheros/lista_size.c", and the properties of it that the specification
    states.

    The program talks to the Win32 API only.  The host operating system is
    modelled by a record of answers ([Host]): what each call returns in this
    run.  The program is a function of those answers and of the content found
    at the output path before the run; it returns the exit status, the final
    machine state and the chronological list of the calls it made and of the
    lines it printed ([Event]). *)

From Stdlib Require Import ZArith NArith List Bool String Ascii Lia.
Import ListNotations.

Local Open Scope string_scope.

(** ** Constants *)

Definition DWORD : Set := N.
Bind Scope N_scope with DWORD.

(** [#define OUTPUT_FILE "C:\\tmp\\lista_sz"] *)
Definition OUTPUT_FILE : string := "C:\tmp\lista_sz".
Definition TMP_DIRECTORY : string := "C:\tmp".

(** [#define BUFFER_SIZE 512] *)
Definition BUFFER_SIZE : Z := 512.

(** Values of the Windows SDK headers. *)
Definition ERROR_NO_MORE_FILES : DWORD := 18%N.
Definition ERROR_ALREADY_EXISTS : DWORD := 183%N.
Definition FILE_ATTRIBUTE_DIRECTORY : DWORD := 16%N.
Definition MAX_PATH : nat := 260.

Definition TAB : string := String "009"%char EmptyString.
Definition CR : string := String "013"%char EmptyString.
Definition LF : string := String "010"%char EmptyString.

(** ** Data *)

(** The fields of [WIN32_FIND_DATAA] that the program reads. *)
Record WIN32_FIND_DATAA : Type := mkFindData {
  dwFileAttributes : DWORD;
  nFileSizeHigh : DWORD;
  nFileSizeLow : DWORD;
  cFileName : string
}.

Inductive HANDLE : Type :=
| INVALID_HANDLE_VALUE
| Handle (id : nat).

Definition is_invalid (h : HANDLE) : bool :=
  match h with INVALID_HANDLE_VALUE => true | Handle _ => false end.

(** What a call of the host returns: failure with the code that
    [GetLastError] then reports, or success with a value. *)
Inductive os_result (A : Type) : Type :=
| OsError (code : DWORD)
| OsOk (a : A).
Arguments OsError {A} code.
Arguments OsOk {A} a.

(** The answers of the host during one run.  [WriteFile_answer k] is the
    answer to the [k]-th call of [WriteFile] (counted from 0): an error, or
    the number of bytes the device is able to take at most.  The enumeration
    is finite: after [FindFirstFileA] has given the first entry,
    [FindNextFileA] gives the entries of [listing_rest] one by one and then
    returns 0 with [FindNextFileA_end] as last-error code. *)
Record Host : Type := mkHost {
  CreateDirectoryA_answer : os_result unit;
  CreateFileA_answer : os_result nat;
  FindFirstFileA_answer : os_result (nat * WIN32_FIND_DATAA);
  listing_rest : list WIN32_FIND_DATAA;
  FindNextFileA_end : DWORD;
  WriteFile_answer : nat -> os_result nat
}.

(** The state the program can observe or change: the bytes stored at
    [OUTPUT_FILE] ([None] when there is no such file), the last-error code
    of the thread and the number of [WriteFile] calls made so far. *)
Record Machine : Type := mkMachine {
  output_file : option string;
  last_error : DWORD;
  write_calls : nat
}.

Definition boot (disk : option string) : Machine :=
  {| output_file := disk; last_error := 0%N; write_calls := 0 |}.

Definition file_content (m : Machine) : string :=
  match output_file m with Some c => c | None => "" end.

(** What the run does, in the order in which it happens. *)
Inductive Event : Type :=
| EvCreateDirectoryA (path : string) (r : os_result unit)
| EvCreateFileA (path : string) (r : os_result nat)
| EvFindFirstFileA (r : os_result (nat * WIN32_FIND_DATAA))
| EvFindNextFileA (h : HANDLE) (r : os_result WIN32_FIND_DATAA)
| EvWriteFile (h : HANDLE) (data : string) (r : os_result N)
| EvFindClose (h : HANDLE)
| EvCloseHandle (h : HANDLE)
| EvStdout (text : string)
| EvStderr (text : string).

(** ** Formatting *)

Definition digit_char (d : N) : ascii := ascii_of_N (48 + d).

(** Decimal digits of [n], most significant first, in front of [acc]. *)
Fixpoint utoa (fuel : nat) (n : N) (acc : string) : string :=
  match fuel with
  | O => acc
  | S fuel' =>
      let acc' := String (digit_char (n mod 10)) acc in
      if (n / 10 =? 0)%N then acc' else utoa fuel' (n / 10)%N acc'
  end.

(** [%llu]: a 64-bit unsigned value has at most 20 digits. *)
Definition fmt_llu (n : N) : string := utoa 20 (n mod 2 ^ 64)%N "".

(** [%lu]: on Windows [unsigned long] has 32 bits, at most 10 digits. *)
Definition fmt_lu (n : N) : string := utoa 10 (n mod 2 ^ 32)%N "".

(** The value a string of decimal digits denotes, to state what [%llu]
    prints. *)
Definition digit_value (c : ascii) : option N :=
  let k := N_of_ascii c in
  if ((48 <=? k) && (k <=? 57))%N then Some (k - 48)%N else None.

Fixpoint decimal_from (v : N) (s : string) : option N :=
  match s with
  | EmptyString => Some v
  | String c s' =>
      match digit_value c with
      | Some d => decimal_from (10 * v + d)%N s'
      | None => None
      end
  end.

Definition decimal_value (s : string) : option N :=
  match s with
  | EmptyString => None
  | _ => decimal_from 0%N s
  end.

(** [((ULONGLONG)findFileData.nFileSizeHigh << 32) | findFileData.nFileSizeLow]:
    the cast widens to 64 bits, the shift wraps at 64 bits. *)
Definition fileSize_of (fd : WIN32_FIND_DATAA) : N :=
  N.lor (N.shiftl (nFileSizeHigh fd mod 2 ^ 64) 32 mod 2 ^ 64) (nFileSizeLow fd).

(** The text ["%s\t%llu\r\n"] stands for. *)
Definition format_line (name : string) (size : N) : string :=
  name ++ TAB ++ fmt_llu size ++ CR ++ LF.

(** [snprintf(buffer, BUFFER_SIZE, "%s\t%llu\r\n", name, size)]: returns the
    length of the whole text and leaves in [buffer] what fits in front of
    the terminating zero. *)
Definition snprintf_line (size_of_buffer : Z) (name : string) (size : N)
  : Z * string :=
  let text := format_line name size in
  (Z.of_nat (String.length text),
   substring 0 (Z.to_nat (size_of_buffer - 1)) text).

(** ** The calls of the Win32 API *)

Definition set_last_error (code : DWORD) (m : Machine) : Machine :=
  {| output_file := output_file m; last_error := code;
     write_calls := write_calls m |}.

Definition GetLastError (m : Machine) : DWORD := last_error m.

Definition CreateDirectoryA (host : Host) (path : string) (m : Machine)
  : bool * Machine * Event :=
  let r := CreateDirectoryA_answer host in
  match r with
  | OsOk _ => (true, m, EvCreateDirectoryA path r)
  | OsError code => (false, set_last_error code m, EvCreateDirectoryA path r)
  end.

(** [CreateFileA(OUTPUT_FILE, GENERIC_WRITE, 0, NULL, CREATE_ALWAYS, ...)]:
    on success the file exists and is empty, whatever it held before. *)
Definition CreateFileA (host : Host) (path : string) (m : Machine)
  : HANDLE * Machine * Event :=
  let r := CreateFileA_answer host in
  match r with
  | OsOk id =>
      (Handle id,
       {| output_file := Some ""; last_error := last_error m;
          write_calls := write_calls m |},
       EvCreateFileA path r)
  | OsError code =>
      (INVALID_HANDLE_VALUE, set_last_error code m, EvCreateFileA path r)
  end.

(** [WriteFile(hFile, buffer, n, &dwBytesWritten, NULL)]: the first [n]
    bytes of the buffer are offered; the bytes the device takes are appended
    to the file and their number is stored in [dwBytesWritten]. *)
Definition WriteFile (host : Host) (hFile : HANDLE) (lpBuffer : string)
    (nNumberOfBytesToWrite : Z) (m : Machine)
  : bool * DWORD * Machine * Event :=
  let data := substring 0 (Z.to_nat nNumberOfBytesToWrite) lpBuffer in
  let k := write_calls m in
  match WriteFile_answer host k with
  | OsError code =>
      (false, 0%N,
       {| output_file := output_file m; last_error := code;
          write_calls := S k |},
       EvWriteFile hFile data (OsError code))
  | OsOk room =>
      let taken := Nat.min room (String.length data) in
      (true, N.of_nat taken,
       {| output_file := Some (file_content m ++ substring 0 taken data);
          last_error := last_error m; write_calls := S k |},
       EvWriteFile hFile data (OsOk (N.of_nat taken)))
  end.

(** ** The program *)

Definition banner : list Event :=
  [ EvStdout ("========================================" ++ LF);
    EvStdout ("UNIPRO - SISTEMAS OPERATIVOS AVANZADOS" ++ LF);
    EvStdout ("Actividad 1" ++ LF);
    EvStdout ("========================================" ++ LF ++ LF) ].

Definition msg_directory (dwError : DWORD) : string :=
  "Error al crear el directorio C:\tmp: " ++ fmt_lu dwError ++ LF.
Definition msg_create (dwError : DWORD) : string :=
  "Error al crear el archivo " ++ OUTPUT_FILE ++ ": " ++ fmt_lu dwError ++ LF.
Definition msg_find_first (dwError : DWORD) : string :=
  "Error al buscar archivos en el directorio actual: " ++ fmt_lu dwError ++ LF.
Definition msg_format (name : string) : string :=
  "Error al formatear la salida para el archivo: " ++ name ++ LF.
Definition msg_write (dwError : DWORD) : string :=
  "Error al escribir en el archivo de salida: " ++ fmt_lu dwError ++ LF.
Definition msg_short_write (name : string) : string :=
  "Advertencia: No se escribieron todos los bytes para " ++ name ++ LF.
Definition msg_enumeration (dwError : DWORD) : string :=
  "Error durante la enumeración de archivos: " ++ fmt_lu dwError ++ LF.
Definition msg_success : string :=
  "Lista de archivos generada exitosamente en " ++ OUTPUT_FILE ++ LF.

(** How one pass through the body of the [do ... while] ends: [Next] when
    control reaches the loop condition (at the end of the body or through
    [continue]), [Break] when it leaves the loop. *)
Inductive Ctl : Type := Next | Break.

Definition is_directory (fd : WIN32_FIND_DATAA) : bool :=
  negb (N.land (dwFileAttributes fd) FILE_ATTRIBUTE_DIRECTORY =? 0)%N.

(** Lines 68-97: the body of the loop for the entry in [findFileData]. *)
Definition loop_body (host : Host) (hFile : HANDLE)
    (findFileData : WIN32_FIND_DATAA) (result : Z) (m : Machine)
  : Ctl * Z * Machine * list Event :=
  if is_directory findFileData then (Next, result, m, [])
  else
    let fileSize := fileSize_of findFileData in
    let '(bytesFormatted, buffer) :=
      snprintf_line BUFFER_SIZE (cFileName findFileData) fileSize in
    if ((bytesFormatted <? 0) || (bytesFormatted >=? BUFFER_SIZE))%Z then
      (Next, result, m, [EvStderr (msg_format (cFileName findFileData))])
    else
      let '(ok, dwBytesWritten, m1, ev) :=
        WriteFile host hFile buffer bytesFormatted m in
      if negb ok then
        let dwError := GetLastError m1 in
        (Break, 1%Z, m1, [ev; EvStderr (msg_write dwError)])
      else if negb (dwBytesWritten =? Z.to_N (bytesFormatted mod 2 ^ 32))%N then
        (Next, result, m1,
         [ev; EvStderr (msg_short_write (cFileName findFileData))])
      else (Next, result, m1, [ev]).

(** Lines 67-99: the loop.  [pending] holds the entries [FindNextFileA] has
    still to give through the handle [hFind]. *)
Fixpoint do_while (host : Host) (hFind hFile : HANDLE)
    (pending : list WIN32_FIND_DATAA) (findFileData : WIN32_FIND_DATAA)
    (result : Z) (m : Machine) : Z * Machine * list Event :=
  let '(ctl, result1, m1, evs) := loop_body host hFile findFileData result m in
  match ctl with
  | Break => (result1, m1, evs)
  | Next =>
      match pending with
      | next :: pending' =>
          let '(result2, m2, evs') :=
            do_while host hFind hFile pending' next result1 m1 in
          (result2, m2, (evs ++ EvFindNextFileA hFind (OsOk next) :: evs')%list)
      | [] =>
          (result1, set_last_error (FindNextFileA_end host) m1,
           (evs ++ [EvFindNextFileA hFind (OsError (FindNextFileA_end host))])%list)
      end
  end.

(** Lines 101-121: what follows the loop.  [printf] and [fprintf] are taken
    to leave the last-error code as it is, so that after a failed write
    [GetLastError] still gives the code of the write. *)
Definition finish (hFind hFile : HANDLE) (result : Z) (m : Machine)
  : Z * Machine * list Event :=
  let dwError := GetLastError m in
  let '(result, evs_check) :=
    if negb (dwError =? ERROR_NO_MORE_FILES)%N
    then (1%Z, [EvStderr (msg_enumeration dwError)])
    else (result, []) in
  let evs_find := if negb (is_invalid hFind) then [EvFindClose hFind] else [] in
  let evs_file := if negb (is_invalid hFile) then [EvCloseHandle hFile] else [] in
  let evs_msg := if (result =? 0)%Z then [EvStdout msg_success] else [] in
  (result, m, (evs_check ++ evs_find ++ evs_file ++ evs_msg)%list).

(** Lines 56-121: from [FindFirstFileA] on. *)
Definition enumerate (host : Host) (hFile : HANDLE) (result : Z) (m : Machine)
  : Z * Machine * list Event :=
  let r := FindFirstFileA_answer host in
  match r with
  | OsError code =>
      (* hFind == INVALID_HANDLE_VALUE *)
      let m1 := set_last_error code m in
      let dwError := GetLastError m1 in
      (1%Z, m1,
       [EvFindFirstFileA r; EvStderr (msg_find_first dwError);
        EvCloseHandle hFile])
  | OsOk (id, findFileData) =>
      let hFind := Handle id in
      let '(result1, m1, evs) :=
        do_while host hFind hFile (listing_rest host) findFileData result m in
      let '(result2, m2, evs') := finish hFind hFile result1 m1 in
      (result2, m2, (EvFindFirstFileA r :: evs ++ evs')%list)
  end.

(** Lines 39-121: from [CreateFileA] on. *)
Definition open_output (host : Host) (result : Z) (m : Machine)
  : Z * Machine * list Event :=
  let '(hFile, m1, ev) := CreateFileA host OUTPUT_FILE m in
  if is_invalid hFile then
    let dwError := GetLastError m1 in
    (1%Z, m1, [ev; EvStderr (msg_create dwError)])
  else
    let '(r, m2, evs) := enumerate host hFile result m1 in
    (r, m2, ev :: evs).

Definition main (host : Host) (m : Machine) : Z * Machine * list Event :=
  let result := 0%Z in
  let '(created, m1, ev) := CreateDirectoryA host TMP_DIRECTORY m in
  let go_on :=
    let '(r, m2, evs) := open_output host result m1 in
    (r, m2, (banner ++ ev :: evs)%list) in
  if negb created then
    let dwError := GetLastError m1 in
    if negb (dwError =? ERROR_ALREADY_EXISTS)%N then
      (1%Z, m1, (banner ++ [ev; EvStderr (msg_directory dwError)])%list)
    else go_on
  else go_on.

(** A run of the program over a disk whose output path holds [disk]. *)
Definition run (host : Host) (disk : option string)
  : Z * Machine * list Event := main host (boot disk).

Definition exit_status (o : Z * Machine * list Event) : Z := fst (fst o).
Definition machine_of (o : Z * Machine * list Event) : Machine := snd (fst o).
Definition events_of (o : Z * Machine * list Event) : list Event := snd o.
Definition file_after (o : Z * Machine * list Event) : option string :=
  output_file (machine_of o).

(** ** What the specification talks about *)

(** The entries the enumeration yields, in the order of the host. *)
Definition entries_of (host : Host) : list WIN32_FIND_DATAA :=
  match FindFirstFileA_answer host with
  | OsOk (_, first) => first :: listing_rest host
  | OsError _ => []
  end.

(** The line of an entry, and whether it has room in the buffer together
    with its terminating zero. *)
Definition line_of (fd : WIN32_FIND_DATAA) : string :=
  format_line (cFileName fd) (fileSize_of fd).

Definition fits (fd : WIN32_FIND_DATAA) : bool :=
  (Z.of_nat (String.length (line_of fd)) <? BUFFER_SIZE)%Z.

Definition writable (fd : WIN32_FIND_DATAA) : bool :=
  negb (is_directory fd) && fits fd.

(** The directory is there: created now, or found to exist already. *)
Definition directory_ready (host : Host) : bool :=
  match CreateDirectoryA_answer host with
  | OsOk _ => true
  | OsError code => (code =? ERROR_ALREADY_EXISTS)%N
  end.

Definition file_opened (host : Host) : bool :=
  directory_ready host &&
  match CreateFileA_answer host with OsOk _ => true | OsError _ => false end.

Definition setup_succeeds (host : Host) : bool :=
  file_opened host &&
  match FindFirstFileA_answer host with OsOk _ => true | OsError _ => false end.

(** The fatal conditions, read off the calls of a run. *)
Definition fatal_event (e : Event) : bool :=
  match e with
  | EvCreateDirectoryA _ (OsError code) => negb (code =? ERROR_ALREADY_EXISTS)%N
  | EvCreateFileA _ (OsError _) => true
  | EvFindFirstFileA (OsError _) => true
  | EvWriteFile _ _ (OsError _) => true
  | EvFindNextFileA _ (OsError code) => negb (code =? ERROR_NO_MORE_FILES)%N
  | _ => false
  end.

Definition fatal_occurred (evs : list Event) : bool := existsb fatal_event evs.

Definition write_failed (e : Event) : bool :=
  match e with EvWriteFile _ _ (OsError _) => true | _ => false end.

(** The buffers passed to [WriteFile], one per call. *)
Fixpoint write_buffers (evs : list Event) : list string :=
  match evs with
  | [] => []
  | EvWriteFile _ data _ :: evs' => data :: write_buffers evs'
  | _ :: evs' => write_buffers evs'
  end.

(** The bytes the calls of [WriteFile] report as written, in order. *)
Fixpoint written_bytes (evs : list Event) : string :=
  match evs with
  | [] => ""
  | EvWriteFile _ data (OsOk n) :: evs' =>
      substring 0 (N.to_nat n) data ++ written_bytes evs'
  | _ :: evs' => written_bytes evs'
  end.

(** A call of [WriteFile] that succeeded with fewer bytes than offered. *)
Definition short_write (e : Event) : bool :=
  match e with
  | EvWriteFile _ data (OsOk n) => negb (n =? N.of_nat (String.length data))%N
  | _ => false
  end.

Definition concat_lines (lines : list string) : string :=
  fold_right append "" lines.

Definition is_success_message (e : Event) : bool :=
  match e with
  | EvStdout text => String.eqb text msg_success
  | _ => false
  end.

Definition success_messages (evs : list Event) : nat :=
  List.length (filter is_success_message evs).

(** Handles obtained and handles released, per kind. *)
Definition file_handles_opened (evs : list Event) : list HANDLE :=
  flat_map (fun e => match e with
                     | EvCreateFileA _ (OsOk id) => [Handle id]
                     | _ => []
                     end) evs.

Definition file_handles_closed (evs : list Event) : list HANDLE :=
  flat_map (fun e => match e with EvCloseHandle h => [h] | _ => [] end) evs.

Definition find_handles_opened (evs : list Event) : list HANDLE :=
  flat_map (fun e => match e with
                     | EvFindFirstFileA (OsOk (id, _)) => [Handle id]
                     | _ => []
                     end) evs.

Definition find_handles_closed (evs : list Event) : list HANDLE :=
  flat_map (fun e => match e with EvFindClose h => [h] | _ => [] end) evs.

(** The events a pass through the loop can produce. *)
Definition loop_event (hFind hFile : HANDLE) (e : Event) : Prop :=
  match e with
  | EvWriteFile h _ _ => h = hFile
  | EvFindNextFileA h _ => h = hFind
  | EvStderr _ => True
  | _ => False
  end.

(** "One line per entry that is no directory", as a property of a run. *)
Definition one_line_per_file (host : Host) (disk : option string) : Prop :=
  setup_succeeds host = true ->
  fatal_occurred (events_of (run host disk)) = false ->
  file_after (run host disk)
  = Some (concat_lines
            (map line_of
               (filter (fun fd => negb (is_directory fd)) (entries_of host)))).

(** The host with another answer to [CreateDirectoryA]. *)
Definition with_directory_answer (r : os_result unit) (host : Host) : Host :=
  {| CreateDirectoryA_answer := r;
     CreateFileA_answer := CreateFileA_answer host;
     FindFirstFileA_answer := FindFirstFileA_answer host;
     listing_rest := listing_rest host;
     FindNextFileA_end := FindNextFileA_end host;
     WriteFile_answer := WriteFile_answer host |}.

(** ** The passes through the loop body and through [main] *)

Definition after_write (m : Machine) (piece : string) : Machine :=
  {| output_file := Some (file_content m ++ piece);
     last_error := last_error m;
     write_calls := S (write_calls m) |}.

Definition after_write_error (m : Machine) (code : DWORD) : Machine :=
  {| output_file := output_file m;
     last_error := code;
     write_calls := S (write_calls m) |}.

(** The five ways through lines 68-97. *)
Inductive body_outcome (host : Host) (hFile : HANDLE)
    (fd : WIN32_FIND_DATAA) (result : Z) (m : Machine)
  : Ctl * Z * Machine * list Event -> Prop :=
| body_directory :
    is_directory fd = true ->
    body_outcome host hFile fd result m (Next, result, m, [])
| body_too_long :
    is_directory fd = false -> fits fd = false ->
    body_outcome host hFile fd result m
      (Next, result, m, [EvStderr (msg_format (cFileName fd))])
| body_write_error (code : DWORD) :
    is_directory fd = false -> fits fd = true ->
    WriteFile_answer host (write_calls m) = OsError code ->
    body_outcome host hFile fd result m
      (Break, 1%Z, after_write_error m code,
       [EvWriteFile hFile (line_of fd) (OsError code);
        EvStderr (msg_write code)])
| body_short_write (room : nat) :
    is_directory fd = false -> fits fd = true ->
    WriteFile_answer host (write_calls m) = OsOk room ->
    room < String.length (line_of fd) ->
    body_outcome host hFile fd result m
      (Next, result, after_write m (substring 0 room (line_of fd)),
       [EvWriteFile hFile (line_of fd) (OsOk (N.of_nat room));
        EvStderr (msg_short_write (cFileName fd))])
| body_full_write (room : nat) :
    is_directory fd = false -> fits fd = true ->
    WriteFile_answer host (write_calls m) = OsOk room ->
    String.length (line_of fd) <= room ->
    body_outcome host hFile fd result m
      (Next, result, after_write m (line_of fd),
       [EvWriteFile hFile (line_of fd)
          (OsOk (N.of_nat (String.length (line_of fd))))]).

(** The machine right after [CreateFileA] succeeded. *)
Definition fresh : Machine :=
  {| output_file := Some ""; last_error := 0%N; write_calls := 0 |}.

Inductive run_shape (host : Host) (disk : option string)
  : Z * Machine * list Event -> Prop :=
| shape_directory_fatal (code : DWORD) :
    CreateDirectoryA_answer host = OsError code ->
    (code =? ERROR_ALREADY_EXISTS)%N = false ->
    run_shape host disk
      (1%Z,
       {| output_file := disk; last_error := code; write_calls := 0 |},
       (banner ++ [EvCreateDirectoryA TMP_DIRECTORY (OsError code);
                   EvStderr (msg_directory code)])%list)
| shape_create_failed (code : DWORD) :
    directory_ready host = true ->
    CreateFileA_answer host = OsError code ->
    run_shape host disk
      (1%Z,
       {| output_file := disk; last_error := code; write_calls := 0 |},
       (banner ++ [EvCreateDirectoryA TMP_DIRECTORY (CreateDirectoryA_answer host);
                   EvCreateFileA OUTPUT_FILE (OsError code);
                   EvStderr (msg_create code)])%list)
| shape_find_failed (idf : nat) (code : DWORD) :
    directory_ready host = true ->
    CreateFileA_answer host = OsOk idf ->
    FindFirstFileA_answer host = OsError code ->
    run_shape host disk
      (1%Z,
       {| output_file := Some ""; last_error := code; write_calls := 0 |},
       (banner ++ [EvCreateDirectoryA TMP_DIRECTORY (CreateDirectoryA_answer host);
                   EvCreateFileA OUTPUT_FILE (OsOk idf);
                   EvFindFirstFileA (OsError code);
                   EvStderr (msg_find_first code);
                   EvCloseHandle (Handle idf)])%list)
| shape_enumerated (idf idn : nat) (first : WIN32_FIND_DATAA)
    (r1 : Z) (m1 : Machine) (evs : list Event) :
    directory_ready host = true ->
    CreateFileA_answer host = OsOk idf ->
    FindFirstFileA_answer host = OsOk (idn, first) ->
    do_while host (Handle idn) (Handle idf) (listing_rest host) first 0 fresh
    = (r1, m1, evs) ->
    run_shape host disk
      (exit_status (finish (Handle idn) (Handle idf) r1 m1),
       machine_of (finish (Handle idn) (Handle idf) r1 m1),
       (banner ++ [EvCreateDirectoryA TMP_DIRECTORY (CreateDirectoryA_answer host);
                   EvCreateFileA OUTPUT_FILE (OsOk idf);
                   EvFindFirstFileA (OsOk (idn, first))]
               ++ evs
               ++ events_of (finish (Handle idn) (Handle idf) r1 m1))%list).

(** ** Sample entries and hosts *)

Fixpoint replicate (n : nat) (c : ascii) : string :=
  match n with
  | O => ""
  | S n' => String c (replicate n' c)
  end.

Definition entry_dot : WIN32_FIND_DATAA := mkFindData 16 0 0 ".".
Definition entry_dotdot : WIN32_FIND_DATAA := mkFindData 16 0 0 "..".
Definition entry_sub : WIN32_FIND_DATAA := mkFindData 16 0 0 "sub".
Definition entry_a_txt : WIN32_FIND_DATAA := mkFindData 32 0 5 "a.txt".
Definition entry_b_txt : WIN32_FIND_DATAA := mkFindData 32 0 7 "b.txt".
Definition entry_huge : WIN32_FIND_DATAA := mkFindData 32 1 2 "huge.bin".
Definition entry_long_name : WIN32_FIND_DATAA :=
  mkFindData 32 0 1 (replicate 509 "x"%char).

(** A device that takes every buffer whole. *)
Definition takes_all : nat -> os_result nat := fun _ => OsOk 512.

(** The scenario of the specification: [a.txt] of 5 bytes and the
    directory [sub], listed after [.] and [..]. *)
Definition host_scenario : Host :=
  mkHost (OsOk tt) (OsOk 1) (OsOk (2, entry_dot))
    [entry_dotdot; entry_a_txt; entry_sub] ERROR_NO_MORE_FILES takes_all.

(** The same directory when [C:\tmp] is there already. *)
Definition host_tmp_exists : Host :=
  with_directory_answer (OsError ERROR_ALREADY_EXISTS) host_scenario.

(** [C:\tmp] cannot be created: access denied. *)
Definition host_tmp_denied : Host :=
  with_directory_answer (OsError 5) host_scenario.

(** A directory with [b.txt] only, while another process keeps the output
    file open: [CreateFileA] fails with a sharing violation. *)
Definition host_locked : Host :=
  mkHost (OsError ERROR_ALREADY_EXISTS) (OsError 32) (OsOk (2, entry_dot))
    [entry_dotdot; entry_b_txt] ERROR_NO_MORE_FILES takes_all.

(** The enumeration cannot start. *)
Definition host_no_listing : Host :=
  mkHost (OsOk tt) (OsOk 1) (OsError 5) [] ERROR_NO_MORE_FILES takes_all.

(** The device takes 3 bytes of every buffer. *)
Definition host_short_writes : Host :=
  mkHost (OsOk tt) (OsOk 1) (OsOk (2, entry_dot))
    [entry_dotdot; entry_a_txt; entry_b_txt] ERROR_NO_MORE_FILES
    (fun _ => OsOk 3).

(** The disk is full at the second write. *)
Definition host_disk_full : Host :=
  mkHost (OsOk tt) (OsOk 1) (OsOk (2, entry_dot))
    [entry_a_txt; entry_b_txt; entry_huge] ERROR_NO_MORE_FILES
    (fun k => match k with 1 => OsError 112 | _ => OsOk 512 end).

(** A listing with an entry whose line has no room in the buffer. *)
Definition host_long_name : Host :=
  mkHost (OsOk tt) (OsOk 1) (OsOk (2, entry_dot))
    [entry_long_name; entry_a_txt] ERROR_NO_MORE_FILES takes_all.

(** Only [b.txt], and a device that takes every buffer whole. *)
Definition host_b_only : Host :=
  mkHost (OsOk tt) (OsOk 1) (OsOk (2, entry_dot))
    [entry_dotdot; entry_b_txt] ERROR_NO_MORE_FILES takes_all.

(** The directories of [host_b_only] and of [host_short_writes] in a later
    run: [C:\tmp] is there by then, and the device takes every buffer
    whole. *)
Definition host_b_again : Host :=
  with_directory_answer (OsError ERROR_ALREADY_EXISTS) host_b_only.

Definition host_two_files_again : Host :=
  mkHost (OsError ERROR_ALREADY_EXISTS) (OsOk 3) (OsOk (5, entry_dot))
    [entry_dotdot; entry_a_txt; entry_b_txt] ERROR_NO_MORE_FILES takes_all.

(** ** Further observations of a run *)

Definition HANDLE_eqb (a b : HANDLE) : bool :=
  match a, b with
  | INVALID_HANDLE_VALUE, INVALID_HANDLE_VALUE => true
  | Handle x, Handle y => Nat.eqb x y
  | _, _ => false
  end.

(** The enumeration handle as the calls of a run see it: not obtained (or
    released), open, or open with the end of the listing reported. *)
Inductive find_state : Type :=
| FindNone
| FindOpen (h : HANDLE)
| FindExhausted (h : HANDLE).

(** The discipline of the two handles, checked along the calls of a run:
    a handle is obtained only when none of its kind is held; [WriteFile]
    and [CloseHandle] get the file handle that is held; [FindNextFileA]
    gets the enumeration handle that is held and is not called again after
    it reported the end; [FindClose] gets the enumeration handle that is
    held; nothing is held when the run ends. *)
Fixpoint handles_well_used (file : option HANDLE) (find : find_state)
    (evs : list Event) : bool :=
  match evs with
  | [] =>
      match file, find with
      | None, FindNone => true
      | _, _ => false
      end
  | e :: rest =>
      match e with
      | EvCreateFileA _ (OsOk id) =>
          match file with
          | None => handles_well_used (Some (Handle id)) find rest
          | Some _ => false
          end
      | EvFindFirstFileA (OsOk (id, _)) =>
          match find with
          | FindNone => handles_well_used file (FindOpen (Handle id)) rest
          | _ => false
          end
      | EvWriteFile h _ _ =>
          match file with
          | Some f => HANDLE_eqb h f && handles_well_used file find rest
          | None => false
          end
      | EvFindNextFileA h (OsOk _) =>
          match find with
          | FindOpen f => HANDLE_eqb h f && handles_well_used file find rest
          | _ => false
          end
      | EvFindNextFileA h (OsError _) =>
          match find with
          | FindOpen f =>
              HANDLE_eqb h f && handles_well_used file (FindExhausted f) rest
          | _ => false
          end
      | EvFindClose h =>
          match find with
          | FindOpen f | FindExhausted f =>
              HANDLE_eqb h f && handles_well_used file FindNone rest
          | FindNone => false
          end
      | EvCloseHandle h =>
          match file with
          | Some f => HANDLE_eqb h f && handles_well_used None find rest
          | None => false
          end
      | _ => handles_well_used file find rest
      end
  end.

(** The lines of the two streams, in the order in which they are printed. *)
Definition stdout_lines (evs : list Event) : list string :=
  flat_map (fun e => match e with EvStdout text => [text] | _ => [] end) evs.

Definition stderr_lines (evs : list Event) : list string :=
  flat_map (fun e => match e with EvStderr text => [text] | _ => [] end) evs.

(** How often a given line is printed on the standard output. *)
Definition times_printed (text : string) (evs : list Event) : nat :=
  List.length (filter (String.eqb text) (stdout_lines evs)).

Fixpoint starts_with (p s : string) : bool :=
  match p with
  | EmptyString => true
  | String a p' =>
      match s with
      | EmptyString => false
      | String b s' => Ascii.eqb a b && starts_with p' s'
      end
  end.

(** A line of line 81 on the error stream. *)
Definition is_format_error (e : Event) : bool :=
  match e with
  | EvStderr text => starts_with "Error al formatear" text
  | _ => false
  end.

(** The line the program owes to a failed call: the text of lines 34, 52,
    61, 89 and 104 of the source, with the code of that call. *)
Definition report_of (e : Event) : option string :=
  match e with
  | EvCreateDirectoryA _ (OsError code) =>
      if (code =? ERROR_ALREADY_EXISTS)%N then None
      else Some ("Error al crear el directorio C:\tmp: " ++ fmt_lu code ++ LF)
  | EvCreateFileA _ (OsError code) =>
      Some ("Error al crear el archivo C:\tmp\lista_sz: "
            ++ fmt_lu code ++ LF)
  | EvFindFirstFileA (OsError code) =>
      Some ("Error al buscar archivos en el directorio actual: "
            ++ fmt_lu code ++ LF)
  | EvWriteFile _ _ (OsError code) =>
      Some ("Error al escribir en el archivo de salida: "
            ++ fmt_lu code ++ LF)
  | EvFindNextFileA _ (OsError code) =>
      if (code =? ERROR_NO_MORE_FILES)%N then None
      else Some ("Error durante la enumeración de archivos: "
                 ++ fmt_lu code ++ LF)
  | _ => None
  end.

(** Every failed call that owes a line is directly followed by it. *)
Fixpoint failures_reported (evs : list Event) : bool :=
  match evs with
  | [] => true
  | e :: rest =>
      match report_of e with
      | None => failures_reported rest
      | Some msg =>
          match rest with
          | EvStderr text :: _ => String.eqb text msg && failures_reported rest
          | _ => false
          end
      end
  end.

(** The entries [FindNextFileA] gave, and the events of a run without
    the calls that gave one. *)
Definition yielded (evs : list Event) : list WIN32_FIND_DATAA :=
  flat_map (fun e => match e with
                     | EvFindNextFileA _ (OsOk fd) => [fd]
                     | _ => []
                     end) evs.

Definition is_yield (e : Event) : bool :=
  match e with EvFindNextFileA _ (OsOk _) => true | _ => false end.

Definition without_yields (evs : list Event) : list Event :=
  filter (fun e => negb (is_yield e)) evs.

(** The host whose listing, after the first entry, holds no directory. *)
Definition without_directories (host : Host) : Host :=
  {| CreateDirectoryA_answer := CreateDirectoryA_answer host;
     CreateFileA_answer := CreateFileA_answer host;
     FindFirstFileA_answer := FindFirstFileA_answer host;
     listing_rest :=
       filter (fun fd => negb (is_directory fd)) (listing_rest host);
     FindNextFileA_end := FindNextFileA_end host;
     WriteFile_answer := WriteFile_answer host |}.

(** Line 99 and what follows it inside the loop: the loop condition after
    a pass that reached it. *)
Definition loop_tail (host : Host) (hFind hFile : HANDLE)
    (pending : list WIN32_FIND_DATAA) (result : Z) (m : Machine)
  : Z * Machine * list Event :=
  match pending with
  | next :: pending' =>
      let '(result2, m2, evs') :=
        do_while host hFind hFile pending' next result m in
      (result2, m2, EvFindNextFileA hFind (OsOk next) :: evs')
  | [] =>
      (result, set_last_error (FindNextFileA_end host) m,
       [EvFindNextFileA hFind (OsError (FindNextFileA_end host))])
  end.

(** * Strings and decimal notation *)

Lemma string_app_assoc (a b c : string) : (a ++ b) ++ c = a ++ (b ++ c).
Proof. induction a as [|x a IH]; simpl; [reflexivity | now rewrite IH]. Qed.

Lemma string_app_nil_r (a : string) : a ++ "" = a.
Proof. induction a as [|x a IH]; simpl; [reflexivity | now rewrite IH]. Qed.

Lemma string_length_app (a b : string) :
  String.length (a ++ b) = String.length a + String.length b.
Proof. induction a as [|x a IH]; simpl; [reflexivity | now rewrite IH]. Qed.

Lemma substring_whole (s : string) (n : nat) :
  String.length s <= n -> substring 0 n s = s.
Proof.
  revert n; induction s as [|c s IH]; intros n Hn.
  - destruct n; reflexivity.
  - destruct n as [|n]; simpl in *; [lia|].
    rewrite IH by lia; reflexivity.
Qed.

Lemma substring_length_le (s : string) (n : nat) :
  String.length (substring 0 n s) <= n.
Proof.
  revert n; induction s as [|c s IH]; intros [|n]; simpl; try lia.
  specialize (IH n); lia.
Qed.

Lemma digit_value_digit_char (d : N) :
  (d < 10)%N -> digit_value (digit_char d) = Some d.
Proof.
  intros Hd. unfold digit_value, digit_char.
  rewrite N_ascii_embedding by lia.
  replace ((48 <=? 48 + d)%N) with true by (symmetry; apply N.leb_le; lia).
  replace ((48 + d <=? 57)%N) with true by (symmetry; apply N.leb_le; lia).
  cbn [andb]. f_equal. lia.
Qed.

(** Reading back the digits [utoa] puts in front of [acc] gives [n]. *)
Lemma decimal_from_utoa (fuel : nat) :
  forall (n : N) (acc : string),
    (n < 10 ^ N.of_nat fuel)%N -> (0 < fuel)%nat ->
    decimal_from 0 (utoa fuel n acc) = decimal_from n acc.
Proof.
  induction fuel as [|fuel IH]; intros n acc Hn Hfuel; [lia|].
  assert (Hmod : (n mod 10 < 10)%N) by (apply N.mod_lt; lia).
  assert (Hdiv : (n = 10 * (n / 10) + n mod 10)%N) by (apply N.div_mod; lia).
  simpl utoa. destruct (N.eqb_spec (n / 10) 0) as [Hz|Hnz].
  - cbn [decimal_from]. rewrite digit_value_digit_char by assumption.
    f_equal. lia.
  - assert (Hpow : (10 ^ N.of_nat (S fuel) = 10 * 10 ^ N.of_nat fuel)%N).
    { rewrite Nat2N.inj_succ, N.pow_succ_r'; reflexivity. }
    assert (Hlt : (n / 10 < 10 ^ N.of_nat fuel)%N).
    { apply N.Div0.div_lt_upper_bound. lia. }
    destruct fuel as [|fuel'].
    { simpl in Hlt. lia. }
    rewrite IH by (assumption || lia).
    cbn [decimal_from]. rewrite digit_value_digit_char by assumption.
    f_equal. lia.
Qed.

Lemma utoa_not_empty (fuel : nat) (n : N) (acc : string) :
  (0 < fuel)%nat -> utoa fuel n acc <> "".
Proof.
  revert n acc; induction fuel as [|fuel IH]; intros n acc Hfuel; [lia|].
  simpl. destruct (n / 10 =? 0)%N; [discriminate|].
  destruct fuel as [|fuel']; [discriminate|].
  apply IH; lia.
Qed.

Lemma utoa_length (fuel : nat) :
  forall (n : N) (acc : string),
    String.length (utoa fuel n acc) <= fuel + String.length acc.
Proof.
  induction fuel as [|fuel IH]; intros n acc; simpl; [lia|].
  destruct (n / 10 =? 0)%N; simpl; [lia|].
  specialize (IH (n / 10)%N (String (digit_char (n mod 10)) acc)).
  simpl in IH. lia.
Qed.

(** [%llu] prints the decimal notation of its argument. *)
Lemma decimal_value_fmt_llu (n : N) :
  (n < 2 ^ 64)%N -> decimal_value (fmt_llu n) = Some n.
Proof.
  intros Hn. unfold fmt_llu, decimal_value.
  rewrite N.mod_small by assumption.
  pose proof (utoa_not_empty 20 n "" ltac:(lia)) as Hne.
  destruct (utoa 20 n "") eqn:E; [congruence|].
  rewrite <- E, decimal_from_utoa; [reflexivity| |lia].
  eapply N.lt_le_trans; [exact Hn|]. vm_compute. discriminate.
Qed.

Lemma fmt_llu_length (n : N) : String.length (fmt_llu n) <= 20.
Proof.
  unfold fmt_llu.
  pose proof (utoa_length 20 (n mod 2 ^ 64)%N "") as H.
  cbn [String.length] in H. lia.
Qed.

(** With both halves in 32 bits nothing is lost in the combination. *)
Lemma fileSize_of_value (fd : WIN32_FIND_DATAA) :
  (nFileSizeHigh fd < 2 ^ 32)%N -> (nFileSizeLow fd < 2 ^ 32)%N ->
  fileSize_of fd = N.lor (N.shiftl (nFileSizeHigh fd) 32) (nFileSizeLow fd)
  /\ fileSize_of fd = (nFileSizeHigh fd * 2 ^ 32 + nFileSizeLow fd)%N
  /\ (fileSize_of fd < 2 ^ 64)%N.
Proof.
  intros Hh Hl. unfold fileSize_of.
  assert (H64 : (2 ^ 64 = 2 ^ 32 * 2 ^ 32)%N) by reflexivity.
  rewrite (N.mod_small (nFileSizeHigh fd)) by (rewrite H64; nia).
  rewrite N.shiftl_mul_pow2.
  rewrite (N.mod_small (nFileSizeHigh fd * 2 ^ 32)) by (rewrite H64; nia).
  assert (Hland : N.land (nFileSizeHigh fd * 2 ^ 32) (nFileSizeLow fd) = 0%N).
  { apply N.bits_inj_0. intros k. rewrite N.land_spec.
    destruct (N.lt_ge_cases k 32) as [Hk|Hk].
    - rewrite N.mul_pow2_bits_low by assumption. reflexivity.
    - replace (N.testbit (nFileSizeLow fd) k) with false;
        [apply andb_false_r|].
      symmetry. destruct (N.eq_dec (nFileSizeLow fd) 0) as [->|Hnz].
      + apply N.bits_0.
      + apply N.bits_above_log2. apply N.log2_lt_pow2; [lia|].
        eapply N.lt_le_trans; [exact Hl|]. apply N.pow_le_mono_r; lia. }
  assert (Hsum : N.lor (nFileSizeHigh fd * 2 ^ 32) (nFileSizeLow fd)
                 = (nFileSizeHigh fd * 2 ^ 32 + nFileSizeLow fd)%N).
  { rewrite N.add_nocarry_lxor by exact Hland.
    rewrite N.lxor_lor by exact Hland. reflexivity. }
  repeat split; [exact Hsum|].
  rewrite Hsum, H64. nia.
Qed.

(** * The body of the loop, case by case *)

Lemma fits_length (fd : WIN32_FIND_DATAA) :
  fits fd = true <-> String.length (line_of fd) < 512.
Proof.
  unfold fits, BUFFER_SIZE. rewrite Z.ltb_lt. lia.
Qed.

Lemma snprintf_line_fits (fd : WIN32_FIND_DATAA) :
  fits fd = true ->
  snprintf_line BUFFER_SIZE (cFileName fd) (fileSize_of fd)
  = (Z.of_nat (String.length (line_of fd)), line_of fd).
Proof.
  intros Hfits. apply fits_length in Hfits.
  unfold snprintf_line. fold (line_of fd). f_equal.
  apply substring_whole. unfold BUFFER_SIZE. lia.
Qed.

Lemma loop_body_outcome (host : Host) (hFile : HANDLE)
    (fd : WIN32_FIND_DATAA) (result : Z) (m : Machine) :
  body_outcome host hFile fd result m (loop_body host hFile fd result m).
Proof.
  unfold loop_body.
  destruct (is_directory fd) eqn:Hdir; [now constructor|].
  destruct (fits fd) eqn:Hfits.
  - rewrite snprintf_line_fits by assumption.
    pose proof (proj1 (fits_length fd) Hfits) as Hlen.
    replace ((Z.of_nat (String.length (line_of fd)) <? 0)%Z) with false
      by (symmetry; apply Z.ltb_ge; lia).
    replace ((Z.of_nat (String.length (line_of fd)) >=? BUFFER_SIZE)%Z)
      with false
      by (symmetry; unfold BUFFER_SIZE; rewrite Z.geb_leb; apply Z.leb_gt; lia).
    cbn [orb]. unfold WriteFile.
    rewrite Nat2Z.id, (substring_whole (line_of fd)) by lia.
    destruct (WriteFile_answer host (write_calls m)) as [code|room] eqn:Hans.
    + cbn [negb GetLastError last_error]. now apply body_write_error.
    + cbn [negb].
      rewrite Z.mod_small by (change (2 ^ 32)%Z with 4294967296%Z; lia).
      rewrite <- nat_N_Z, N2Z.id.
      destruct (Nat.le_gt_cases (String.length (line_of fd)) room) as [Hr|Hr].
      * rewrite Nat.min_r by assumption.
        rewrite N.eqb_refl. cbn [negb].
        rewrite substring_whole by lia.
        now apply body_full_write with (room := room).
      * rewrite Nat.min_l by lia.
        replace (N.of_nat room =? N.of_nat (String.length (line_of fd)))%N
          with false by (symmetry; apply N.eqb_neq; lia).
        cbn [negb]. now apply body_short_write.
  - unfold snprintf_line. fold (line_of fd).
    replace ((Z.of_nat (String.length (line_of fd)) >=? BUFFER_SIZE)%Z)
      with true.
    + rewrite orb_true_r. now apply body_too_long.
    + symmetry. unfold fits in Hfits. rewrite Z.geb_leb.
      apply Z.leb_le. apply Z.ltb_ge in Hfits. exact Hfits.
Qed.

(** * The loop, by induction on the entries still to come *)

Section Loop.

Variable host : Host.
Variables hFind hFile : HANDLE.

(** Induction along the passes of [do_while]. *)
Lemma do_while_ind
    (P : list WIN32_FIND_DATAA -> WIN32_FIND_DATAA -> Z -> Machine ->
         Z * Machine * list Event -> Prop) :
  (forall pending fd result m result1 m1 evs,
      loop_body host hFile fd result m = (Break, result1, m1, evs) ->
      P pending fd result m (result1, m1, evs)) ->
  (forall fd result m result1 m1 evs,
      loop_body host hFile fd result m = (Next, result1, m1, evs) ->
      P [] fd result m
        (result1, set_last_error (FindNextFileA_end host) m1,
         (evs ++ [EvFindNextFileA hFind (OsError (FindNextFileA_end host))])%list)) ->
  (forall next pending fd result m result1 m1 evs result2 m2 evs',
      loop_body host hFile fd result m = (Next, result1, m1, evs) ->
      do_while host hFind hFile pending next result1 m1 = (result2, m2, evs') ->
      P pending next result1 m1 (result2, m2, evs') ->
      P (next :: pending) fd result m
        (result2, m2, (evs ++ EvFindNextFileA hFind (OsOk next) :: evs')%list)) ->
  forall pending fd result m,
    P pending fd result m (do_while host hFind hFile pending fd result m).
Proof.
  intros Hbreak Hlast Hstep pending.
  induction pending as [|next pending IH]; intros fd result m.
  - simpl. destruct (loop_body host hFile fd result m)
      as [[[[|] result1] m1] evs] eqn:Hbody.
    + now apply Hlast.
    + now apply Hbreak.
  - simpl. destruct (loop_body host hFile fd result m)
      as [[[[|] result1] m1] evs] eqn:Hbody.
    + destruct (do_while host hFind hFile pending next result1 m1)
        as [[result2 m2] evs'] eqn:Hrec.
      eapply Hstep; [exact Hbody | exact Hrec |].
      rewrite <- Hrec. apply IH.
    + now apply Hbreak.
Qed.

Ltac body_cases Hbody :=
  match type of Hbody with
  | loop_body ?host ?hFile ?fd ?result ?m = _ =>
      let Ho := fresh "Ho" in
      pose proof (loop_body_outcome host hFile fd result m) as Ho;
      rewrite Hbody in Ho; inversion Ho; subst; clear Ho
  end.

Lemma written_bytes_app (a b : list Event) :
  written_bytes (a ++ b) = written_bytes a ++ written_bytes b.
Proof.
  induction a as [|e a IH]; [reflexivity|].
  destruct e as [| | | |h data [code|n]| | | |]; simpl; rewrite ?IH;
    try reflexivity.
  now rewrite string_app_assoc.
Qed.

Lemma write_buffers_app (a b : list Event) :
  (write_buffers (a ++ b) = write_buffers a ++ write_buffers b)%list.
Proof.
  induction a as [|e a IH]; [reflexivity|].
  destruct e; simpl; rewrite ?IH; reflexivity.
Qed.

(** One pass appends to the file what its call of [WriteFile] reports. *)
Lemma loop_body_file (fd : WIN32_FIND_DATAA) (result : Z) (m : Machine)
    (c : Ctl) (result1 : Z) (m1 : Machine) (evs : list Event) (before : string) :
  loop_body host hFile fd result m = (c, result1, m1, evs) ->
  output_file m = Some before ->
  output_file m1 = Some (before ++ written_bytes evs).
Proof.
  intros Hbody Hfile. body_cases Hbody; simpl;
    unfold file_content; rewrite ?Hfile, ?string_app_nil_r; try reflexivity.
  - now rewrite Nat2N.id.
  - now rewrite Nat2N.id, substring_whole by lia.
Qed.

(** One pass calls [WriteFile] once for an entry that is no directory and
    whose line fits, and not at all for another entry. *)
Lemma loop_body_buffers (fd : WIN32_FIND_DATAA) (result : Z) (m : Machine)
    (c : Ctl) (result1 : Z) (m1 : Machine) (evs : list Event) :
  loop_body host hFile fd result m = (c, result1, m1, evs) ->
  write_buffers evs = map line_of (filter writable [fd]).
Proof.
  intros Hbody. unfold writable.
  body_cases Hbody; simpl;
    repeat match goal with H : _ = _ :> bool |- _ => rewrite H end;
    reflexivity.
Qed.

(** A pass that goes on to the loop condition had no failed write, changed
    no result and met no fatal condition. *)
Lemma loop_body_next (fd : WIN32_FIND_DATAA) (result : Z) (m : Machine)
    (result1 : Z) (m1 : Machine) (evs : list Event) :
  loop_body host hFile fd result m = (Next, result1, m1, evs) ->
  result1 = result /\ existsb write_failed evs = false
  /\ existsb fatal_event evs = false.
Proof.
  intros Hbody. body_cases Hbody; auto.
Qed.

(** A pass that leaves the loop did so on a failed write. *)
Lemma loop_body_break (fd : WIN32_FIND_DATAA) (result : Z) (m : Machine)
    (result1 : Z) (m1 : Machine) (evs : list Event) :
  loop_body host hFile fd result m = (Break, result1, m1, evs) ->
  exists code,
    evs = [EvWriteFile hFile (line_of fd) (OsError code);
           EvStderr (msg_write code)]
    /\ result1 = 1%Z /\ last_error m1 = code
    /\ output_file m1 = output_file m
    /\ is_directory fd = false /\ fits fd = true
    /\ WriteFile_answer host (write_calls m) = OsError code.
Proof.
  intros Hbody. body_cases Hbody. exists code. auto 10.
Qed.

Lemma loop_body_events (fd : WIN32_FIND_DATAA) (result : Z) (m : Machine)
    (c : Ctl) (result1 : Z) (m1 : Machine) (evs : list Event) :
  loop_body host hFile fd result m = (c, result1, m1, evs) ->
  Forall (loop_event hFind hFile) evs.
Proof.
  intros Hbody. body_cases Hbody; repeat constructor.
Qed.

(** The loop produces calls of [WriteFile] and [FindNextFileA] and lines
    on the error stream, nothing else. *)
Lemma do_while_events (pending : list WIN32_FIND_DATAA)
    (fd : WIN32_FIND_DATAA) (result : Z) (m : Machine) :
  Forall (loop_event hFind hFile)
    (events_of (do_while host hFind hFile pending fd result m)).
Proof.
  apply do_while_ind with
    (P := fun _ _ _ _ o => Forall (loop_event hFind hFile) (events_of o));
    unfold events_of; simpl.
  - intros. eapply loop_body_events; eassumption.
  - intros. apply Forall_app. split.
    + eapply loop_body_events; eassumption.
    + repeat constructor.
  - intros. apply Forall_app. split.
    + eapply loop_body_events; eassumption.
    + constructor; [reflexivity | assumption].
Qed.

(** The file after the loop is the file before it followed by the bytes
    written, in the order of the calls. *)
Lemma do_while_file (pending : list WIN32_FIND_DATAA)
    (fd : WIN32_FIND_DATAA) (result : Z) (m : Machine) :
  forall before, output_file m = Some before ->
    file_after (do_while host hFind hFile pending fd result m)
    = Some (before ++
            written_bytes
              (events_of (do_while host hFind hFile pending fd result m))).
Proof.
  apply do_while_ind with
    (P := fun _ _ _ m o =>
            forall before, output_file m = Some before ->
              file_after o = Some (before ++ written_bytes (events_of o)));
    unfold file_after, machine_of, events_of; simpl.
  - intros. eapply loop_body_file; eassumption.
  - intros. rewrite written_bytes_app. simpl. rewrite string_app_nil_r.
    eapply loop_body_file; eassumption.
  - intros next pending' fd' r m' r1 m1 evs r2 m2 evs' Hbody _ IH before Hb.
    rewrite written_bytes_app. simpl. rewrite <- string_app_assoc.
    apply IH. eapply loop_body_file; eassumption.
Qed.

(** The buffers written are the lines of the entries that are no
    directories and fit, in the order of the enumeration: all of them when
    no write fails, those up to the failed one otherwise. *)
Lemma do_while_buffers (pending : list WIN32_FIND_DATAA)
    (fd : WIN32_FIND_DATAA) (result : Z) (m : Machine) :
  let o := do_while host hFind hFile pending fd result m in
  (exists k, write_buffers (events_of o)
             = firstn k (map line_of (filter writable (fd :: pending))))
  /\ (existsb write_failed (events_of o) = false ->
      write_buffers (events_of o)
      = map line_of (filter writable (fd :: pending))).
Proof.
  cbv zeta.
  apply do_while_ind with
    (P := fun pending fd _ _ o =>
      (exists k, write_buffers (events_of o)
                 = firstn k (map line_of (filter writable (fd :: pending))))
      /\ (existsb write_failed (events_of o) = false ->
          write_buffers (events_of o)
          = map line_of (filter writable (fd :: pending))));
    unfold events_of; cbn [snd].
  - intros pending' fd' r m' r1 m1 evs Hbody.
    destruct (loop_body_break _ _ _ _ _ _ Hbody)
      as (code & -> & _ & _ & _ & Hdir & Hfits & _).
    split.
    + exists 1. cbn [filter]. unfold writable. rewrite Hdir, Hfits.
      reflexivity.
    + discriminate.
  - intros fd' r m' r1 m1 evs Hbody.
    rewrite write_buffers_app, app_nil_r.
    rewrite (loop_body_buffers _ _ _ _ _ _ _ Hbody).
    split; [|reflexivity].
    exists (List.length (map line_of (filter writable [fd']))).
    now rewrite firstn_all.
  - intros next pending' fd' r m' r1 m1 evs r2 m2 evs' Hbody _ [[k Hk] IH].
    rewrite write_buffers_app. cbn [write_buffers].
    rewrite (loop_body_buffers _ _ _ _ _ _ _ Hbody).
    change (fd' :: next :: pending') with ([fd'] ++ next :: pending')%list.
    rewrite filter_app, map_app. split.
    + exists (List.length (map line_of (filter writable [fd'])) + k).
      rewrite firstn_app_2. now rewrite Hk.
    + rewrite existsb_app. cbn [existsb write_failed orb].
      intros Hno. apply orb_false_iff in Hno as [_ Hno].
      now rewrite IH.
Qed.

(** How the loop ends: on a failed write, with [result] set to 1 and the
    code of the write as last error, or after the last entry, with
    [result] as it was and the code of [FindNextFileA] as last error. *)
Lemma do_while_end (pending : list WIN32_FIND_DATAA)
    (fd : WIN32_FIND_DATAA) (result : Z) (m : Machine) :
  let o := do_while host hFind hFile pending fd result m in
  (existsb write_failed (events_of o) = true
   /\ exit_status o = 1%Z /\ fatal_occurred (events_of o) = true)
  \/ (existsb write_failed (events_of o) = false
      /\ exit_status o = result
      /\ last_error (machine_of o) = FindNextFileA_end host
      /\ fatal_occurred (events_of o)
         = negb (FindNextFileA_end host =? ERROR_NO_MORE_FILES)%N).
Proof.
  cbv zeta.
  apply do_while_ind with
    (P := fun _ _ result _ o =>
      (existsb write_failed (events_of o) = true
       /\ exit_status o = 1%Z /\ fatal_occurred (events_of o) = true)
      \/ (existsb write_failed (events_of o) = false
          /\ exit_status o = result
          /\ last_error (machine_of o) = FindNextFileA_end host
          /\ fatal_occurred (events_of o)
             = negb (FindNextFileA_end host =? ERROR_NO_MORE_FILES)%N));
    unfold events_of, exit_status, machine_of, fatal_occurred; cbn [fst snd].
  - intros pending' fd' r m' r1 m1 evs Hbody.
    destruct (loop_body_break _ _ _ _ _ _ Hbody) as (code & -> & -> & _).
    left. auto.
  - intros fd' r m' r1 m1 evs Hbody.
    destruct (loop_body_next _ _ _ _ _ _ Hbody) as (-> & Hw & Hf).
    right. rewrite !existsb_app, Hw, Hf. cbn. rewrite orb_false_r. auto.
  - intros next pending' fd' r m' r1 m1 evs r2 m2 evs' Hbody _ IH.
    destruct (loop_body_next _ _ _ _ _ _ Hbody) as (-> & Hw & Hf).
    rewrite !existsb_app, Hw, Hf. cbn [existsb write_failed fatal_event orb].
    exact IH.
Qed.


End Loop.

(** * The last-error code at the start of the loop is never read *)

Lemma loop_body_last_error (host : Host) (hFile : HANDLE) (code : DWORD)
    (fd : WIN32_FIND_DATAA) (result : Z) (m : Machine) :
  loop_body host hFile fd result (set_last_error code m)
  = match loop_body host hFile fd result m with
    | (Break, r, m1, evs) => (Break, r, m1, evs)
    | (Next, r, m1, evs) => (Next, r, set_last_error code m1, evs)
    end.
Proof.
  unfold loop_body.
  destruct (is_directory fd); [reflexivity|].
  destruct (snprintf_line BUFFER_SIZE (cFileName fd) (fileSize_of fd))
    as [bytesFormatted buffer].
  destruct ((bytesFormatted <? 0) || (bytesFormatted >=? BUFFER_SIZE))%Z;
    [reflexivity|].
  unfold WriteFile, file_content, set_last_error.
  cbn [output_file last_error write_calls].
  destruct (WriteFile_answer host (write_calls m)) as [c|room];
    cbn [negb]; [reflexivity|].
  destruct (negb _); reflexivity.
Qed.

Lemma do_while_last_error (host : Host) (hFind hFile : HANDLE) (code : DWORD)
    (pending : list WIN32_FIND_DATAA) :
  forall (fd : WIN32_FIND_DATAA) (result : Z) (m : Machine),
    do_while host hFind hFile pending fd result (set_last_error code m)
    = do_while host hFind hFile pending fd result m.
Proof.
  induction pending as [|next pending IH]; intros fd result m; simpl;
    rewrite loop_body_last_error;
    destruct (loop_body host hFile fd result m) as [[[[|] r1] m1] evs];
    try reflexivity.
  now rewrite IH.
Qed.

(** * The four ways through [main] *)

Lemma run_shape_ok (host : Host) (disk : option string) :
  run_shape host disk (run host disk).
Proof.
  unfold run, main, CreateDirectoryA.
  destruct (CreateDirectoryA_answer host) as [code|[]] eqn:Hdir;
    cbn [negb GetLastError last_error set_last_error boot].
  - destruct (code =? ERROR_ALREADY_EXISTS)%N eqn:Hcode; cbn [negb].
    + assert (Hready : directory_ready host = true)
        by (unfold directory_ready; now rewrite Hdir).
      unfold open_output, CreateFileA.
      destruct (CreateFileA_answer host) as [code'|idf] eqn:Hfile;
        cbn [is_invalid GetLastError last_error set_last_error
             output_file write_calls boot].
      * rewrite <- Hdir. now apply shape_create_failed.
      * unfold enumerate.
        destruct (FindFirstFileA_answer host) as [code'|[idn first]] eqn:Hfind;
          cbn [GetLastError last_error set_last_error output_file write_calls
               boot].
        -- rewrite <- Hdir. now apply shape_find_failed.
        -- change {| output_file := Some ""; last_error := code;
                     write_calls := 0 |} with (set_last_error code fresh).
           rewrite do_while_last_error.
           destruct (do_while host (Handle idn) (Handle idf)
                       (listing_rest host) first 0 fresh)
             as [[r1 m1] evs] eqn:Hloop.
           pose proof (shape_enumerated host disk idf idn first r1 m1 evs
                         Hready Hfile Hfind Hloop) as Hshape.
           destruct (finish (Handle idn) (Handle idf) r1 m1) as [[r2 m2] evs'].
           rewrite Hdir in Hshape. exact Hshape.
    + now apply shape_directory_fatal.
  - assert (Hready : directory_ready host = true)
      by (unfold directory_ready; now rewrite Hdir).
    unfold open_output, CreateFileA.
    destruct (CreateFileA_answer host) as [code'|idf] eqn:Hfile;
      cbn [is_invalid GetLastError last_error set_last_error
           output_file write_calls boot].
    * rewrite <- Hdir. now apply shape_create_failed.
    * unfold enumerate.
      destruct (FindFirstFileA_answer host) as [code'|[idn first]] eqn:Hfind;
        cbn [GetLastError last_error set_last_error output_file write_calls
               boot].
      -- rewrite <- Hdir. now apply shape_find_failed.
      -- change {| output_file := Some ""; last_error := 0; write_calls := 0 |}
           with fresh.
         destruct (do_while host (Handle idn) (Handle idf)
                     (listing_rest host) first 0 fresh)
           as [[r1 m1] evs] eqn:Hloop.
         pose proof (shape_enumerated host disk idf idn first r1 m1 evs
                       Hready Hfile Hfind Hloop) as Hshape.
         destruct (finish (Handle idn) (Handle idf) r1 m1) as [[r2 m2] evs'].
         rewrite Hdir in Hshape. exact Hshape.
Qed.

(** What [finish] does with two valid handles. *)
Lemma finish_valid (idn idf : nat) (result : Z) (m : Machine) :
  let bad := negb (last_error m =? ERROR_NO_MORE_FILES)%N in
  let status := if bad then 1%Z else result in
  finish (Handle idn) (Handle idf) result m
  = (status, m,
     ((if bad then [EvStderr (msg_enumeration (last_error m))] else [])
      ++ [EvFindClose (Handle idn); EvCloseHandle (Handle idf)]
      ++ (if (status =? 0)%Z then [EvStdout msg_success] else []))%list).
Proof.
  unfold finish, GetLastError. cbn [is_invalid negb].
  destruct (negb (last_error m =? ERROR_NO_MORE_FILES)%N); reflexivity.
Qed.

(** * Facts about whole runs *)

Ltac run_cases host disk :=
  let o := fresh "o" in
  let Ho := fresh "Ho" in
  let Hs := fresh "Hs" in
  let code := fresh "code" in
  let idf := fresh "idf" in
  let idn := fresh "idn" in
  let first := fresh "first" in
  let r1 := fresh "r1" in
  let m1 := fresh "m1" in
  let evs := fresh "evs" in
  pose proof (run_shape_ok host disk) as Hs;
  remember (run host disk) as o eqn:Ho;
  destruct Hs as [ code Sdir Scode
                 | code Sready Sfile
                 | idf code Sready Sfile Sfind
                 | idf idn first r1 m1 evs Sready Sfile Sfind Sloop ].

Ltac project_outcome :=
  repeat match goal with
  | |- context [exit_status (?a, ?b, ?c)] =>
      change (exit_status (a, b, c)) with a
  | |- context [machine_of (?a, ?b, ?c)] =>
      change (machine_of (a, b, c)) with b
  | |- context [events_of (?a, ?b, ?c)] =>
      change (events_of (a, b, c)) with c
  | |- context [file_after (?a, ?b, ?c)] =>
      change (file_after (a, b, c)) with (output_file b)
  end.

Ltac loop_facts lemma Hloop :=
  match type of Hloop with
  | do_while ?host ?hFind ?hFile ?pending ?fd ?result ?m = _ =>
      let Hf := fresh "Hfact" in
      pose proof (lemma host hFind hFile pending fd result m) as Hf;
      cbv zeta in Hf; rewrite Hloop in Hf;
      unfold events_of, exit_status, machine_of, file_after in Hf;
      cbn [fst snd] in Hf
  end.

Lemma fatal_banner : existsb fatal_event banner = false.
Proof. reflexivity. Qed.

Lemma directory_ready_not_fatal (host : Host) (path : string) :
  directory_ready host = true ->
  fatal_event (EvCreateDirectoryA path (CreateDirectoryA_answer host)) = false.
Proof.
  unfold directory_ready. destruct (CreateDirectoryA_answer host) as [code|u];
    cbn; [intros ->|]; reflexivity.
Qed.

Lemma finish_status (hFind hFile : HANDLE) (result : Z) (m : Machine) :
  exit_status (finish hFind hFile result m)
  = if negb (last_error m =? ERROR_NO_MORE_FILES)%N then 1%Z else result.
Proof.
  unfold finish, GetLastError, exit_status.
  destruct (negb (last_error m =? ERROR_NO_MORE_FILES)%N); reflexivity.
Qed.

Lemma finish_machine (hFind hFile : HANDLE) (result : Z) (m : Machine) :
  machine_of (finish hFind hFile result m) = m.
Proof.
  unfold finish, GetLastError, machine_of.
  destruct (negb (last_error m =? ERROR_NO_MORE_FILES)%N); reflexivity.
Qed.

Lemma finish_not_fatal (hFind hFile : HANDLE) (result : Z) (m : Machine) :
  existsb fatal_event (events_of (finish hFind hFile result m)) = false.
Proof.
  unfold finish, GetLastError, events_of.
  destruct (negb (last_error m =? ERROR_NO_MORE_FILES)%N); cbn [snd];
    destruct (negb (is_invalid hFind)), (negb (is_invalid hFile));
    match goal with |- context [(?r =? 0)%Z] => destruct (r =? 0)%Z end;
    reflexivity.
Qed.

(** The exit status is 1 when a fatal condition occurred and 0 otherwise. *)
Lemma run_exit_status (host : Host) (disk : option string) :
  exit_status (run host disk)
  = if fatal_occurred (events_of (run host disk)) then 1%Z else 0%Z.
Proof.
  run_cases host disk; project_outcome; unfold fatal_occurred;
    rewrite ?existsb_app, fatal_banner; cbn [existsb orb].
  - cbn [fatal_event]. rewrite Scode. reflexivity.
  - cbn [fatal_event]. rewrite orb_true_r. reflexivity.
  - cbn [fatal_event]. rewrite !orb_true_r. reflexivity.
  - rewrite directory_ready_not_fatal by assumption.
    rewrite finish_not_fatal, finish_status, orb_false_r.
    cbn [fatal_event orb].
    loop_facts do_while_end Sloop. unfold fatal_occurred in Hfact.
    destruct Hfact as [(_ & -> & ->)|(_ & -> & -> & ->)].
    + destruct (negb (last_error m1 =? ERROR_NO_MORE_FILES)%N); reflexivity.
    + rewrite ?orb_false_r. reflexivity.
Qed.

Lemma loop_events_projection {A : Type} (f : Event -> list A)
    (hFind hFile : HANDLE) (evs : list Event) :
  (forall e, loop_event hFind hFile e -> f e = []) ->
  Forall (loop_event hFind hFile) evs ->
  flat_map f evs = [].
Proof.
  intros Hf Hall. induction Hall as [|e evs He _ IH]; [reflexivity|].
  cbn [flat_map]. now rewrite (Hf e He), IH.
Qed.

Lemma loop_events_no_success (hFind hFile : HANDLE) (evs : list Event) :
  Forall (loop_event hFind hFile) evs ->
  filter is_success_message evs = [].
Proof.
  intros Hall. induction Hall as [|e evs He _ IH]; [reflexivity|].
  destruct e; cbn in He |- *; try contradiction; exact IH.
Qed.

(** ** Exit status and success message *)

(** What a run prints on the standard output. *)
Lemma run_stdout_lines (host : Host) (disk : option string) :
  stdout_lines (events_of (run host disk))
  = (stdout_lines banner
     ++ (if (exit_status (run host disk) =? 0)%Z then [msg_success]
         else []))%list.
Proof.
  run_cases host disk; project_outcome; unfold stdout_lines;
    rewrite ?flat_map_app; cbn [flat_map app Z.eqb]; try reflexivity.
  loop_facts do_while_events Sloop.
  rewrite (loop_events_projection _ _ _ evs) by
    (try exact Hfact; intros [] He; cbn in He; (contradiction || reflexivity)).
  rewrite finish_valid. cbv zeta. project_outcome.
  destruct (negb (last_error m1 =? ERROR_NO_MORE_FILES)%N);
    cbn [flat_map app Z.eqb]; [reflexivity|].
  destruct (r1 =? 0)%Z; reflexivity.
Qed.

(** The only path handed to [CreateFileA] is the output path. *)
Lemma run_creates_output_path (host : Host) (disk : option string)
    (path : string) (r : os_result nat) :
  In (EvCreateFileA path r) (events_of (run host disk)) ->
  path = "C:\tmp\lista_sz".
Proof.
  assert (Hlist : forall l,
             In (EvCreateFileA path r) l ->
             Forall (fun e => match e with
                              | EvCreateFileA p _ => p = OUTPUT_FILE
                              | _ => True
                              end) l ->
             path = "C:\tmp\lista_sz").
  { intros l Hin Hall.
    apply (proj1 (Forall_forall _ _) Hall) in Hin. exact Hin. }
  intros Hin. apply (Hlist _ Hin). clear Hin Hlist.
  run_cases host disk; project_outcome;
    repeat (apply Forall_app; split); repeat constructor.
  - loop_facts do_while_events Sloop.
    eapply Forall_impl; [|exact Hfact].
    intros [] He; cbn in He; (contradiction || exact I).
  - rewrite finish_valid. cbv zeta. project_outcome.
    destruct (negb (last_error m1 =? ERROR_NO_MORE_FILES)%N);
      match goal with |- context [(?x =? 0)%Z] => destruct (x =? 0)%Z end;
      repeat constructor.
Qed.

(** C3. The exit status of a run is 1 when a fatal condition occurred
    (a failure of directory creation other than "already exists", of the
    creation of the output file, of the start of the enumeration or of a
    write, or an end of the enumeration with a code other than
    [ERROR_NO_MORE_FILES]) and 0 otherwise; hence it is 0 if and only if no
    fatal condition occurred.  The line "Lista de archivos generada
    exitosamente en C:\tmp\lista_sz" is printed on the standard output
    once when the exit status is 0 and not at all otherwise, and the path
    it names is the one path the run hands to [CreateFileA]. *)
Theorem exit_status_reflects_fatal_conditions :
  forall (host : Host) (disk : option string),
    let o := run host disk in
    exit_status o = (if fatal_occurred (events_of o) then 1%Z else 0%Z)
    /\ (exit_status o = 0%Z <-> fatal_occurred (events_of o) = false)
    /\ success_messages (events_of o)
       = (if (exit_status o =? 0)%Z then 1 else 0)
    /\ times_printed
         ("Lista de archivos generada exitosamente en C:\tmp\lista_sz" ++ LF)
         (events_of o)
       = (if (exit_status o =? 0)%Z then 1 else 0)
    /\ (forall path r,
          In (EvCreateFileA path r) (events_of o) ->
          path = "C:\tmp\lista_sz").
Proof.
  intros host disk o. subst o. split; [apply run_exit_status|]. split.
  - rewrite run_exit_status.
    destruct (fatal_occurred (events_of (run host disk)));
      split; (discriminate || reflexivity).
  - split; [|split].
    + run_cases host disk; project_outcome; unfold success_messages;
        try reflexivity.
      rewrite !filter_app, !length_app.
      loop_facts do_while_events Sloop.
      rewrite (loop_events_no_success _ _ _ Hfact).
      rewrite finish_valid. cbv zeta. project_outcome.
      destruct (negb (last_error m1 =? ERROR_NO_MORE_FILES)%N);
        [reflexivity|].
      destruct (r1 =? 0)%Z; reflexivity.
    + unfold times_printed. rewrite run_stdout_lines.
      destruct (exit_status (run host disk) =? 0)%Z; reflexivity.
    + intros path r. apply run_creates_output_path.
Qed.

Lemma exit_status_reflects_fatal_conditions_witness :
  exit_status (run host_scenario None) = 0%Z
  /\ times_printed
       ("Lista de archivos generada exitosamente en C:\tmp\lista_sz" ++ LF)
       (events_of (run host_scenario None)) = 1
  /\ exit_status (run host_disk_full None) = 1%Z
  /\ times_printed
       ("Lista de archivos generada exitosamente en C:\tmp\lista_sz" ++ LF)
       (events_of (run host_disk_full None)) = 0
  /\ OUTPUT_FILE = "C:\tmp\lista_sz".
Proof.
  destruct (exit_status_reflects_fatal_conditions host_scenario None)
    as (Hs & _ & _ & Hp & Hpath).
  destruct (exit_status_reflects_fatal_conditions host_disk_full None)
    as (Hs' & _ & _ & Hp' & _).
  split; [|split; [|split; [|split]]].
  - rewrite Hs. reflexivity.
  - rewrite Hp, Hs. reflexivity.
  - rewrite Hs'. reflexivity.
  - rewrite Hp', Hs'. reflexivity.
  - apply (Hpath OUTPUT_FILE (OsOk 1)). vm_compute. tauto.
Defined.

(** ** Handles *)

Lemma file_opened_true (host : Host) (idf : nat) :
  directory_ready host = true -> CreateFileA_answer host = OsOk idf ->
  file_opened host = true.
Proof. unfold file_opened. now intros -> ->. Qed.

Lemma file_opened_false (host : Host) (code : DWORD) :
  CreateFileA_answer host = OsError code -> file_opened host = false.
Proof. unfold file_opened. intros ->. apply andb_false_r. Qed.

Lemma directory_fatal_not_ready (host : Host) (code : DWORD) :
  CreateDirectoryA_answer host = OsError code ->
  (code =? ERROR_ALREADY_EXISTS)%N = false ->
  directory_ready host = false.
Proof. unfold directory_ready. now intros -> ->. Qed.

Lemma directory_fatal_not_opened (host : Host) (code : DWORD) :
  CreateDirectoryA_answer host = OsError code ->
  (code =? ERROR_ALREADY_EXISTS)%N = false ->
  file_opened host = false.
Proof.
  intros Hdir Hcode. unfold file_opened.
  now rewrite (directory_fatal_not_ready host code).
Qed.

(** C9. On every path through a run the handles released by [CloseHandle]
    are exactly the handles [CreateFileA] returned, and the handles
    released by [FindClose] are exactly the handles [FindFirstFileA]
    returned; a run obtains at most one handle of each kind.  So a handle
    that was obtained is closed once, and nothing is closed that was not
    obtained. *)
Theorem handles_closed_exactly_once :
  forall (host : Host) (disk : option string),
    let evs := events_of (run host disk) in
    file_handles_closed evs = file_handles_opened evs
    /\ find_handles_closed evs = find_handles_opened evs
    /\ List.length (file_handles_opened evs) <= 1
    /\ List.length (find_handles_opened evs) <= 1.
Proof.
  intros host disk evs. subst evs.
  run_cases host disk; project_outcome;
    unfold file_handles_closed, file_handles_opened,
      find_handles_closed, find_handles_opened;
    rewrite ?flat_map_app; cbn [flat_map banner app List.length];
    try (repeat split; (reflexivity || lia)).
  loop_facts do_while_events Sloop.
  rewrite !(loop_events_projection _ _ _ evs) by
    (try exact Hfact; intros [] He; cbn in He; (contradiction || reflexivity)).
  rewrite finish_valid. cbv zeta. project_outcome.
  destruct (negb (last_error m1 =? ERROR_NO_MORE_FILES)%N);
    cbn [flat_map app List.length];
    match goal with |- context [(?r =? 0)%Z] => destruct (r =? 0)%Z end;
    repeat split; (reflexivity || (cbn; lia)).
Qed.

(** ** A failed start of the enumeration *)

(** C10. When the output file was opened and [FindFirstFileA] fails, the
    exit status is 1, the output file exists and is empty whatever it held
    before the run, no write was attempted, and the file handle is closed. *)
Theorem failed_enumeration_start_leaves_empty_file :
  forall (host : Host) (disk : option string) (idf : nat) (code : DWORD),
    directory_ready host = true ->
    CreateFileA_answer host = OsOk idf ->
    FindFirstFileA_answer host = OsError code ->
    let o := run host disk in
    exit_status o = 1%Z
    /\ file_after o = Some ""
    /\ write_buffers (events_of o) = []
    /\ file_handles_closed (events_of o) = [Handle idf].
Proof.
  intros host disk idf code Hready Hfile Hfind o. subst o.
  run_cases host disk; project_outcome; try congruence.
  - rewrite (directory_fatal_not_ready host code0) in Hready by assumption.
    discriminate.
  - assert (idf0 = idf) as -> by congruence.
    unfold file_handles_closed. rewrite write_buffers_app, flat_map_app.
    repeat split; reflexivity.
Qed.

Lemma failed_enumeration_start_witness :
  exit_status (run host_no_listing (Some "old listing")) = 1%Z
  /\ file_after (run host_no_listing (Some "old listing")) = Some ""
  /\ write_buffers (events_of (run host_no_listing (Some "old listing"))) = []
  /\ file_handles_closed (events_of (run host_no_listing (Some "old listing")))
     = [Handle 1].
Proof.
  apply (failed_enumeration_start_leaves_empty_file
           host_no_listing (Some "old listing") 1 5); reflexivity.
Defined.

(** ** Preparing the directory *)

Lemma do_while_with_directory_answer (r : os_result unit) (host : Host)
    (hFind hFile : HANDLE) (pending : list WIN32_FIND_DATAA) :
  forall (fd : WIN32_FIND_DATAA) (result : Z) (m : Machine),
    do_while (with_directory_answer r host) hFind hFile pending fd result m
    = do_while host hFind hFile pending fd result m.
Proof.
  induction pending as [|next pending IH]; intros fd result m; simpl;
    change (loop_body (with_directory_answer r host) hFile fd result m)
      with (loop_body host hFile fd result m);
    destruct (loop_body host hFile fd result m) as [[[[|] r1] m1] evs];
    try reflexivity.
  now rewrite IH.
Qed.

Lemma open_output_with_directory_answer (r : os_result unit) (host : Host)
    (result : Z) (m : Machine) :
  open_output (with_directory_answer r host) result m
  = open_output host result m.
Proof.
  unfold open_output, CreateFileA, enumerate.
  cbn [with_directory_answer CreateFileA_answer FindFirstFileA_answer
       listing_rest].
  destruct (CreateFileA_answer host) as [c|idf]; [reflexivity|].
  cbn [is_invalid].
  destruct (FindFirstFileA_answer host) as [c|[idn first]]; [reflexivity|].
  now rewrite do_while_with_directory_answer.
Qed.

Lemma open_output_last_error (host : Host) (code : DWORD)
    (result : Z) (m : Machine) :
  open_output host result (set_last_error code m) = open_output host result m.
Proof.
  unfold open_output, CreateFileA, enumerate.
  destruct (CreateFileA_answer host) as [c|idf]; [reflexivity|].
  cbn [is_invalid].
  destruct (FindFirstFileA_answer host) as [c|[idn first]]; [reflexivity|].
  cbn [set_last_error output_file last_error write_calls].
  change {| output_file := Some ""; last_error := code;
            write_calls := write_calls m |}
    with (set_last_error code
            {| output_file := Some ""; last_error := last_error m;
               write_calls := write_calls m |}).
  now rewrite do_while_last_error.
Qed.

(** C7. When [CreateDirectoryA] fails with [ERROR_ALREADY_EXISTS] the run
    goes on as after a successful creation: same exit status, same final
    state, same calls and output after the call of [CreateDirectoryA].
    When it fails with another code the run consists of the banner, the
    call, the line "Error al crear el directorio C:\tmp: " followed by the
    code in decimal on the error stream, and exit status 1: [CreateFileA]
    is not called and the output path keeps its content. *)
Theorem directory_preparation :
  forall (host : Host) (disk : option string) (code : DWORD),
    CreateDirectoryA_answer host = OsError code ->
    (code = ERROR_ALREADY_EXISTS ->
     let created := run (with_directory_answer (OsOk tt) host) disk in
     exit_status (run host disk) = exit_status created
     /\ machine_of (run host disk) = machine_of created
     /\ exists evs,
         events_of (run host disk)
         = (banner ++ EvCreateDirectoryA TMP_DIRECTORY (OsError code) :: evs)%list
         /\ events_of created
            = (banner ++ EvCreateDirectoryA TMP_DIRECTORY (OsOk tt) :: evs)%list)
    /\ (code <> ERROR_ALREADY_EXISTS ->
        run host disk
        = (1%Z,
           {| output_file := disk; last_error := code; write_calls := 0 |},
           (banner ++ [EvCreateDirectoryA "C:\tmp" (OsError code);
                       EvStderr ("Error al crear el directorio C:\tmp: "
                                 ++ fmt_lu code ++ LF)])%list)).
Proof.
  intros host disk code Hdir. split.
  - intros ->. cbv zeta. unfold run, main, CreateDirectoryA.
    cbn [with_directory_answer CreateDirectoryA_answer]. rewrite Hdir.
    cbn [negb GetLastError last_error set_last_error N.eqb Pos.eqb
         ERROR_ALREADY_EXISTS].
    rewrite open_output_with_directory_answer.
    change {| output_file := output_file (boot disk);
              last_error := 183; write_calls := write_calls (boot disk) |}
      with (set_last_error 183 (boot disk)).
    rewrite open_output_last_error.
    destruct (open_output host 0 (boot disk)) as [[r m2] evs].
    project_outcome. repeat split. exists evs. split; reflexivity.
  - intros Hcode. apply N.eqb_neq in Hcode.
    unfold run, main, CreateDirectoryA. rewrite Hdir.
    cbn [negb GetLastError last_error set_last_error].
    rewrite Hcode. reflexivity.
Qed.

Lemma directory_preparation_witness :
  (exit_status (run host_tmp_exists None) = 0%Z
   /\ file_after (run host_tmp_exists None)
      = file_after (run host_scenario None))
  /\ exit_status (run host_tmp_denied None) = 1%Z
  /\ file_after (run host_tmp_denied None) = None
  /\ stderr_lines (events_of (run host_tmp_denied None))
     = ["Error al crear el directorio C:\tmp: 5" ++ LF].
Proof.
  split.
  - destruct (directory_preparation host_tmp_exists None ERROR_ALREADY_EXISTS
                eq_refl) as [Hexists _].
    destruct (Hexists eq_refl) as (Hstatus & Hmachine & _).
    split.
    + rewrite Hstatus. reflexivity.
    + unfold file_after. rewrite Hmachine. reflexivity.
  - destruct (directory_preparation host_tmp_denied None 5 eq_refl)
      as [_ Hdenied].
    rewrite Hdenied by discriminate. repeat split; reflexivity.
Defined.

(** ** Consecutive runs *)

(** A run that opens the output file does not depend on what the path
    held before. *)
Lemma run_forgets_disk (host : Host) (disk disk' : option string) :
  file_opened host = true -> run host disk = run host disk'.
Proof.
  unfold file_opened, directory_ready. intros Hopen.
  unfold run, main, CreateDirectoryA, open_output, CreateFileA.
  destruct (CreateDirectoryA_answer host) as [c|[]];
    destruct (CreateFileA_answer host) as [c'|idf];
    rewrite ?andb_false_r in Hopen; try discriminate;
    cbn [negb GetLastError last_error set_last_error boot is_invalid
         output_file write_calls].
  - rewrite andb_true_r in Hopen. rewrite Hopen. reflexivity.
  - reflexivity.
Qed.

(** A run that does not open the output file leaves the path as it was. *)
Lemma run_keeps_disk (host : Host) (disk : option string) :
  file_opened host = false -> file_after (run host disk) = disk.
Proof.
  intros Hclosed. run_cases host disk; project_outcome; try reflexivity.
  - rewrite (file_opened_true host idf) in Hclosed by assumption.
    discriminate.
  - rewrite (file_opened_true host idf) in Hclosed by assumption.
    discriminate.
Qed.

(** The bytes one pass leaves in the file depend on the host through the
    answers to [WriteFile] only, not on handles or on [result]. *)
Lemma loop_body_same_file (host1 host2 : Host) (hFile1 hFile2 : HANDLE)
    (fd : WIN32_FIND_DATAA) (r r' : Z) (m m' : Machine) :
  (forall k, WriteFile_answer host1 k = WriteFile_answer host2 k) ->
  output_file m = output_file m' ->
  write_calls m = write_calls m' ->
  match loop_body host1 hFile1 fd r m, loop_body host2 hFile2 fd r' m' with
  | (c1, _, m1, _), (c2, _, m2, _) =>
      c1 = c2 /\ output_file m1 = output_file m2
      /\ write_calls m1 = write_calls m2
  end.
Proof.
  intros Hanswers Hfile Hcalls. unfold loop_body.
  destruct (is_directory fd); [auto|].
  destruct (snprintf_line BUFFER_SIZE (cFileName fd) (fileSize_of fd))
    as [bytesFormatted buffer].
  destruct ((bytesFormatted <? 0) || (bytesFormatted >=? BUFFER_SIZE))%Z;
    [auto|].
  unfold WriteFile, file_content. rewrite Hanswers, Hfile, Hcalls.
  destruct (WriteFile_answer host2 (write_calls m')) as [code|room];
    cbn [negb]; [auto|].
  destruct (negb _); auto.
Qed.

Lemma do_while_same_file (host1 host2 : Host)
    (hFind1 hFile1 hFind2 hFile2 : HANDLE)
    (pending : list WIN32_FIND_DATAA) :
  (forall k, WriteFile_answer host1 k = WriteFile_answer host2 k) ->
  forall (fd : WIN32_FIND_DATAA) (r r' : Z) (m m' : Machine),
    output_file m = output_file m' ->
    write_calls m = write_calls m' ->
    file_after (do_while host1 hFind1 hFile1 pending fd r m)
    = file_after (do_while host2 hFind2 hFile2 pending fd r' m').
Proof.
  intros Hanswers.
  induction pending as [|next pending IH]; intros fd r r' m m' Hfile Hcalls;
    pose proof (loop_body_same_file host1 host2 hFile1 hFile2 fd r r' m m'
                  Hanswers Hfile Hcalls) as Hbody;
    simpl;
    destruct (loop_body host1 hFile1 fd r m) as [[[c1 r1] m1] e1];
    destruct (loop_body host2 hFile2 fd r' m') as [[[c2 r2] m2] e2];
    destruct Hbody as (<- & Hf & Hw); destruct c1; try exact Hf.
  specialize (IH next r1 r2 m1 m2 Hf Hw).
  destruct (do_while host1 hFind1 hFile1 pending next r1 m1) as [[r3 m3] e3].
  destruct (do_while host2 hFind2 hFile2 pending next r2 m2) as [[r4 m4] e4].
  exact IH.
Qed.

(** Two runs that open the output file, are given the same entries and
    get the same answers to their writes leave the same bytes in it. *)
Lemma run_same_file (host1 host2 : Host) (disk disk' : option string) :
  file_opened host1 = true -> file_opened host2 = true ->
  entries_of host1 = entries_of host2 ->
  (forall k, WriteFile_answer host1 k = WriteFile_answer host2 k) ->
  file_after (run host1 disk) = file_after (run host2 disk').
Proof.
  intros Hopen1 Hopen2 Hentries Hanswers.
  pose proof (run_shape_ok host1 disk) as Hs1.
  pose proof (run_shape_ok host2 disk') as Hs2.
  remember (run host1 disk) as o1 eqn:Ho1.
  remember (run host2 disk') as o2 eqn:Ho2.
  unfold entries_of in Hentries.
  destruct Hs1 as [ c1 Hdir1 Hcode1 | c1 Hready1 Hfile1
                  | idf1 c1 Hready1 Hfile1 Hfind1
                  | idf1 idn1 first1 r1 m1 evs1 Hready1 Hfile1 Hfind1 Hloop1 ].
  - rewrite (directory_fatal_not_opened host1 c1) in Hopen1 by assumption.
    discriminate.
  - rewrite (file_opened_false host1 c1) in Hopen1 by assumption.
    discriminate.
  - destruct Hs2 as [ c2 Hdir2 Hcode2 | c2 Hready2 Hfile2
                    | idf2 c2 Hready2 Hfile2 Hfind2
                    | idf2 idn2 first2 r2 m2 evs2 Hready2 Hfile2 Hfind2 Hloop2 ].
    + rewrite (directory_fatal_not_opened host2 c2) in Hopen2 by assumption.
      discriminate.
    + rewrite (file_opened_false host2 c2) in Hopen2 by assumption.
      discriminate.
    + reflexivity.
    + rewrite Hfind1, Hfind2 in Hentries. discriminate.
  - destruct Hs2 as [ c2 Hdir2 Hcode2 | c2 Hready2 Hfile2
                    | idf2 c2 Hready2 Hfile2 Hfind2
                    | idf2 idn2 first2 r2 m2 evs2 Hready2 Hfile2 Hfind2 Hloop2 ].
    + rewrite (directory_fatal_not_opened host2 c2) in Hopen2 by assumption.
      discriminate.
    + rewrite (file_opened_false host2 c2) in Hopen2 by assumption.
      discriminate.
    + rewrite Hfind1, Hfind2 in Hentries. discriminate.
    + rewrite Hfind1, Hfind2 in Hentries. injection Hentries as <- Hrest.
      project_outcome. rewrite !finish_machine.
      pose proof (do_while_same_file host1 host2 (Handle idn1) (Handle idf1)
                    (Handle idn2) (Handle idf2) (listing_rest host1)
                    Hanswers first1 0%Z 0%Z fresh fresh eq_refl eq_refl)
        as Hsame.
      rewrite Hrest in Hsame at 2. rewrite Hloop1, Hloop2 in Hsame.
      exact Hsame.
Qed.

(** Against C8 for every pair of runs.
    The second of two runs finds the output file locked: the file keeps
    the listing of the first run, [a.txt], although the directory of the
    second run holds [b.txt]; what the file holds after the second run
    depends on the first run.  Nor do two runs over the same directory
    always leave the same bytes: the first run may get short writes and
    the second none, or the first may find the output file locked and the
    second open it. *)
Lemma locked_second_run_keeps_first_listing :
  file_after (run host_locked (file_after (run host_scenario None)))
  = Some ("a.txt" ++ TAB ++ "5" ++ CR ++ LF)
  /\ entries_of host_locked = [entry_dot; entry_dotdot; entry_b_txt]
  /\ exit_status (run host_locked (file_after (run host_scenario None))) = 1%Z
  /\ file_after (run host_locked (file_after (run host_scenario None)))
     <> file_after (run host_locked (file_after (run host_b_only None)))
  /\ (entries_of host_short_writes = entries_of host_two_files_again
      /\ file_after (run host_short_writes None) = Some "a.tb.t"
      /\ file_after
           (run host_two_files_again (file_after (run host_short_writes None)))
         = Some ("a.txt" ++ TAB ++ "5" ++ CR ++ LF
                 ++ "b.txt" ++ TAB ++ "7" ++ CR ++ LF))
  /\ (entries_of host_locked = entries_of host_b_again
      /\ file_after (run host_locked (Some "held by another process"))
         = Some "held by another process"
      /\ file_after
           (run host_b_again
              (file_after (run host_locked (Some "held by another process"))))
         = Some ("b.txt" ++ TAB ++ "7" ++ CR ++ LF)).
Proof.
  repeat split; try reflexivity. vm_compute. discriminate.
Qed.

(** C8. When the second of two consecutive runs opens the output file,
    the file after it does not depend on what the first run left there:
    the file is created anew, not appended to.  When the second run does
    not open the output file, the file keeps what the first run left.  Two
    consecutive runs that both open the output file, are given the same
    entries by the enumeration and get the same answers to their writes
    leave the same bytes in the output file, whatever else differs between
    them (the directory [C:\tmp] created in the first run and found in the
    second, the handles, the code that ends the enumeration). *)
Theorem second_run_starts_from_empty_file :
  forall (host1 host2 : Host) (disk : option string),
    (file_opened host2 = true ->
     forall disk' : option string,
       file_after (run host2 (file_after (run host1 disk)))
       = file_after (run host2 disk'))
    /\ (file_opened host2 = false ->
        file_after (run host2 (file_after (run host1 disk)))
        = file_after (run host1 disk))
    /\ (file_opened host1 = true -> file_opened host2 = true ->
        entries_of host1 = entries_of host2 ->
        (forall k, WriteFile_answer host1 k = WriteFile_answer host2 k) ->
        file_after (run host2 (file_after (run host1 disk)))
        = file_after (run host1 disk))
    /\ file_after (run host1 (file_after (run host1 disk)))
       = file_after (run host1 disk).
Proof.
  intros host1 host2 disk. split; [|split; [|split]].
  - intros Hopen disk'.
    now rewrite (run_forgets_disk host2 _ disk') by assumption.
  - intros Hclosed. now apply run_keeps_disk.
  - intros Hopen1 Hopen2 Hentries Hanswers.
    symmetry. now apply run_same_file.
  - destruct (file_opened host1) eqn:Hopen.
    + now rewrite (run_forgets_disk host1 _ disk) by assumption.
    + now rewrite !run_keeps_disk by assumption.
Qed.

Lemma second_run_starts_from_empty_file_witness :
  file_after (run host_b_again (file_after (run host_scenario None)))
  = Some ("b.txt" ++ TAB ++ "7" ++ CR ++ LF)
  /\ file_after (run host_locked (file_after (run host_scenario None)))
     = Some ("a.txt" ++ TAB ++ "5" ++ CR ++ LF)
  /\ file_after (run host_tmp_exists (file_after (run host_scenario None)))
     = Some ("a.txt" ++ TAB ++ "5" ++ CR ++ LF).
Proof.
  split; [|split].
  - destruct (second_run_starts_from_empty_file host_scenario host_b_again None)
      as (Hfresh & _).
    rewrite (Hfresh eq_refl None). reflexivity.
  - destruct (second_run_starts_from_empty_file host_scenario host_locked None)
      as (_ & Hkept & _).
    rewrite (Hkept eq_refl). reflexivity.
  - destruct (second_run_starts_from_empty_file host_scenario host_tmp_exists
                None) as (_ & _ & Hsame & _).
    rewrite Hsame; try reflexivity.
Defined.

(** ** The lines of the output file *)

Lemma do_while_next (host : Host) (hFind hFile : HANDLE)
    (next : WIN32_FIND_DATAA) (pending : list WIN32_FIND_DATAA)
    (fd : WIN32_FIND_DATAA) (result : Z) (m : Machine)
    (result1 : Z) (m1 : Machine) (evs : list Event) :
  loop_body host hFile fd result m = (Next, result1, m1, evs) ->
  do_while host hFind hFile (next :: pending) fd result m
  = let '(result2, m2, evs') :=
      do_while host hFind hFile pending next result1 m1 in
    (result2, m2, (evs ++ EvFindNextFileA hFind (OsOk next) :: evs')%list).
Proof. intros Hbody. simpl. now rewrite Hbody. Qed.

Lemma write_failed_is_fatal (evs : list Event) :
  fatal_occurred evs = false -> existsb write_failed evs = false.
Proof.
  unfold fatal_occurred. induction evs as [|e evs IH]; [reflexivity|].
  cbn [existsb]. intros H. apply orb_false_iff in H as [He Hevs].
  rewrite (IH Hevs), orb_false_r.
  destruct e as [| | | |h data [c|n]| | | |]; try reflexivity. exact He.
Qed.

(** Without failed or short writes the file receives the buffers whole. *)
Lemma written_bytes_complete (evs : list Event) :
  existsb write_failed evs = false -> existsb short_write evs = false ->
  written_bytes evs = concat_lines (write_buffers evs).
Proof.
  induction evs as [|e evs IH]; [reflexivity|].
  cbn [existsb]. intros Hf Hs.
  apply orb_false_iff in Hf as [Hf Hfs], Hs as [Hs Hss].
  specialize (IH Hfs Hss).
  destruct e as [| | | |h data [c|n]| | | |]; cbn; try exact IH.
  - discriminate.
  - cbn in Hs. apply negb_false_iff, N.eqb_eq in Hs. subst n.
    rewrite Nat2N.id, substring_whole by lia. now rewrite IH.
Qed.

Lemma written_bytes_finish (hFind hFile : HANDLE) (result : Z) (m : Machine) :
  written_bytes (events_of (finish hFind hFile result m)) = ""
  /\ write_buffers (events_of (finish hFind hFile result m)) = [].
Proof.
  unfold finish, GetLastError, events_of.
  destruct (negb (last_error m =? ERROR_NO_MORE_FILES)%N); cbn [snd];
    destruct (negb (is_invalid hFind)), (negb (is_invalid hFile));
    match goal with |- context [(?r =? 0)%Z] => destruct (r =? 0)%Z end;
    split; reflexivity.
Qed.

(** The file of a run that opened it holds the bytes its writes report. *)
Lemma run_file (host : Host) (disk : option string) :
  file_after (run host disk)
  = if file_opened host then Some (written_bytes (events_of (run host disk)))
    else disk.
Proof.
  run_cases host disk; project_outcome.
  - rewrite (directory_fatal_not_opened host code) by assumption. reflexivity.
  - rewrite (file_opened_false host code) by assumption. reflexivity.
  - rewrite (file_opened_true host idf) by assumption. reflexivity.
  - rewrite (file_opened_true host idf) by assumption.
    rewrite finish_machine, !written_bytes_app.
    rewrite (proj1 (written_bytes_finish _ _ _ _)), string_app_nil_r.
    loop_facts do_while_file Sloop. exact (Hfact "" eq_refl).
Qed.

(** The buffers a run writes are the lines of the entries that are no
    directories and fit the buffer, in the order of the enumeration, up to
    the first failed write. *)
Lemma run_buffers (host : Host) (disk : option string) :
  (exists k, write_buffers (events_of (run host disk))
             = firstn k (map line_of (filter writable (entries_of host))))
  /\ (setup_succeeds host = true ->
      existsb write_failed (events_of (run host disk)) = false ->
      write_buffers (events_of (run host disk))
      = map line_of (filter writable (entries_of host))).
Proof.
  run_cases host disk; project_outcome.
  - split; [exists 0; reflexivity|].
    unfold setup_succeeds.
    now rewrite (directory_fatal_not_opened host code).
  - split; [exists 0; reflexivity|].
    unfold setup_succeeds.
    now rewrite (file_opened_false host code).
  - split; [exists 0; reflexivity|].
    unfold setup_succeeds. rewrite Sfind, andb_false_r. discriminate.
  - unfold entries_of. rewrite Sfind.
    rewrite !write_buffers_app, !existsb_app.
    rewrite (proj2 (written_bytes_finish _ _ _ _)), app_nil_r.
    cbn [write_buffers banner app].
    loop_facts do_while_buffers Sloop. destruct Hfact as [Hk Hall].
    split; [exact Hk|].
    intros _ Hno. apply Hall.
    apply orb_false_iff in Hno as [_ Hno].
    apply orb_false_iff in Hno as [_ Hno].
    apply orb_false_iff in Hno as [Hno _]. exact Hno.
Qed.

Lemma line_of_format (fd : WIN32_FIND_DATAA) :
  (nFileSizeHigh fd < 2 ^ 32)%N -> (nFileSizeLow fd < 2 ^ 32)%N ->
  let size := N.lor (N.shiftl (nFileSizeHigh fd) 32) (nFileSizeLow fd) in
  line_of fd = cFileName fd ++ TAB ++ fmt_llu size ++ CR ++ LF
  /\ decimal_value (fmt_llu size) = Some size
  /\ size = (nFileSizeHigh fd * 2 ^ 32 + nFileSizeLow fd)%N.
Proof.
  intros Hh Hl size.
  destruct (fileSize_of_value fd Hh Hl) as (Hlor & Hsum & Hlt).
  subst size. rewrite <- Hlor. repeat split.
  - now apply decimal_value_fmt_llu.
  - exact Hsum.
Qed.

(** Against C1 for every run without fatal condition.
    With short writes and no fatal condition the file does not hold the
    lines of the files: of [a.txt] and [b.txt] it holds three bytes each. *)
Lemma short_writes_lose_lines :
  setup_succeeds host_short_writes = true
  /\ fatal_occurred (events_of (run host_short_writes None)) = false
  /\ exit_status (run host_short_writes None) = 0%Z
  /\ file_after (run host_short_writes None) = Some "a.tb.t"
  /\ ~ one_line_per_file host_short_writes None.
Proof.
  repeat split; try reflexivity.
  intros Hclaim. specialize (Hclaim eq_refl eq_refl).
  vm_compute in Hclaim. discriminate.
Qed.

(** C1. In a run in which setup succeeds and no fatal condition
    occurs, [WriteFile] is called once for every entry that is no
    directory and whose line is shorter than 512 bytes, in the order of
    the enumeration, with the line of that entry as buffer, and the file
    holds the bytes these calls report as written.  When every such line
    fits and no write is short, the file is the concatenation of the lines
    of the entries that are no directories.  The line of an entry is its
    name, a tab, the decimal notation of [(high << 32) | low] and CR LF. *)
Theorem one_line_per_written_entry :
  forall (host : Host) (disk : option string),
    setup_succeeds host = true ->
    fatal_occurred (events_of (run host disk)) = false ->
    let o := run host disk in
    write_buffers (events_of o)
    = map line_of (filter writable (entries_of host))
    /\ file_after o = Some (written_bytes (events_of o))
    /\ ((forall fd, In fd (entries_of host) ->
                    is_directory fd = false -> fits fd = true) ->
        existsb short_write (events_of o) = false ->
        file_after o
        = Some (concat_lines
                  (map line_of
                     (filter (fun fd => negb (is_directory fd))
                        (entries_of host)))))
    /\ (forall fd,
          (nFileSizeHigh fd < 2 ^ 32)%N -> (nFileSizeLow fd < 2 ^ 32)%N ->
          let size := N.lor (N.shiftl (nFileSizeHigh fd) 32) (nFileSizeLow fd) in
          line_of fd = cFileName fd ++ TAB ++ fmt_llu size ++ CR ++ LF
          /\ decimal_value (fmt_llu size) = Some size).
Proof.
  intros host disk Hsetup Hfatal o. subst o.
  pose proof (write_failed_is_fatal _ Hfatal) as Hno.
  assert (Hopen : file_opened host = true).
  { unfold setup_succeeds in Hsetup. now apply andb_true_iff in Hsetup. }
  pose proof (run_file host disk) as Hfile. rewrite Hopen in Hfile.
  pose proof (proj2 (run_buffers host disk) Hsetup Hno) as Hbuf.
  repeat split.
  - exact Hbuf.
  - exact Hfile.
  - intros Hfits Hshort.
    rewrite Hfile, (written_bytes_complete _ Hno Hshort), Hbuf.
    do 3 f_equal. apply filter_ext_in. intros fd Hin. unfold writable.
    destruct (is_directory fd) eqn:Hdir; [reflexivity|].
    now rewrite (Hfits fd Hin Hdir).
  - now apply line_of_format.
  - now apply line_of_format.
Qed.

Lemma one_line_per_written_entry_witness :
  file_after (run host_scenario (Some "old listing"))
  = Some ("a.txt" ++ TAB ++ "5" ++ CR ++ LF)
  /\ line_of entry_huge = "huge.bin" ++ TAB ++ "4294967298" ++ CR ++ LF.
Proof.
  destruct (one_line_per_written_entry host_scenario (Some "old listing")
              eq_refl eq_refl) as (_ & _ & Hlines & Hformat).
  split.
  - rewrite Hlines; [reflexivity| |reflexivity].
    intros fd Hin Hdir.
    repeat (destruct Hin as [<-|Hin]; [try discriminate; reflexivity|]).
    destruct Hin.
  - destruct (Hformat entry_huge eq_refl eq_refl) as [Hline _].
    rewrite Hline. reflexivity.
Defined.

(** ** Directories *)

Lemma write_buffers_nil_written (evs : list Event) :
  write_buffers evs = [] -> written_bytes evs = "".
Proof.
  induction evs as [|e evs IH]; [reflexivity|].
  destruct e; cbn; try exact IH. discriminate.
Qed.

(** C2. An entry classified as a directory passes through the loop body
    without a call, without a message and without a change of state, so
    its pass through the loop contributes the following call of
    [FindNextFileA] only.  In every run the buffers written are lines of
    entries that are no directories, one call each in the order of the
    enumeration, and the file holds the bytes of these calls and no
    others; a listing of directories only leaves the file empty. *)
Theorem directories_write_nothing :
  forall (host : Host) (disk : option string),
    let o := run host disk in
    (forall hFile fd result m,
        is_directory fd = true ->
        loop_body host hFile fd result m = (Next, result, m, []))
    /\ (forall hFind hFile fd next pending result m,
          is_directory fd = true ->
          do_while host hFind hFile (next :: pending) fd result m
          = let '(r, m', evs) :=
              do_while host hFind hFile pending next result m in
            (r, m', EvFindNextFileA hFind (OsOk next) :: evs))
    /\ (exists k,
          write_buffers (events_of o)
          = firstn k
              (map line_of
                 (filter fits
                    (filter (fun fd => negb (is_directory fd))
                       (entries_of host)))))
    /\ file_after o
       = (if file_opened host then Some (written_bytes (events_of o))
          else disk)
    /\ ((forall fd, In fd (entries_of host) -> is_directory fd = true) ->
        write_buffers (events_of o) = []
        /\ (file_opened host = true -> file_after o = Some "")).
Proof.
  intros host disk o. subst o.
  assert (Hbody : forall hFile fd result m,
             is_directory fd = true ->
             loop_body host hFile fd result m = (Next, result, m, [])).
  { intros hFile fd result m Hdir. unfold loop_body. now rewrite Hdir. }
  assert (Hfilter : forall l,
             filter fits (filter (fun fd => negb (is_directory fd)) l)
             = filter writable l).
  { intros l. induction l as [|fd l IH]; [reflexivity|].
    cbn [filter]. unfold writable at 1.
    destruct (is_directory fd); cbn [negb andb filter];
      [exact IH | now rewrite IH]. }
  destruct (run_buffers host disk) as [[k Hk] _].
  assert (Hnone : forall l,
             (forall fd, In fd l -> is_directory fd = true) ->
             filter writable l = []).
  { intros l. induction l as [|fd l IH]; intros Hall; [reflexivity|].
    cbn [filter]. unfold writable at 1.
    rewrite (Hall fd (or_introl eq_refl)). cbn [negb andb].
    apply IH. intros fd' Hin. apply Hall. now right. }
  split; [exact Hbody|].
  split.
  { intros hFind hFile fd next pending result m Hdir.
    now rewrite (do_while_next _ _ _ _ _ _ _ _ _ _ _
                   (Hbody hFile fd result m Hdir)). }
  split; [exists k; now rewrite Hfilter|].
  split; [apply run_file|].
  intros Hall. rewrite (Hnone _ Hall) in Hk.
  assert (Hempty : write_buffers (events_of (run host disk)) = [])
    by (rewrite Hk; now destruct k).
  split; [exact Hempty|].
  intros Hopen. rewrite run_file, Hopen. f_equal.
  now apply write_buffers_nil_written.
Qed.

Lemma directories_write_nothing_witness :
  loop_body host_scenario (Handle 1) entry_sub 0 fresh = (Next, 0%Z, fresh, [])
  /\ write_buffers (events_of (run host_scenario None))
     = ["a.txt" ++ TAB ++ "5" ++ CR ++ LF]
  /\ file_after (run host_scenario None)
     = Some ("a.txt" ++ TAB ++ "5" ++ CR ++ LF).
Proof.
  destruct (directories_write_nothing host_scenario None)
    as (Hbody & _ & _ & Hfile & _).
  split; [apply Hbody; reflexivity|].
  split; [reflexivity|].
  rewrite Hfile. reflexivity.
Defined.

(** ** Failed writes *)



(** ** Conditions that concern one entry *)

Ltac body_outcome_of host hFile fd result m :=
  let out := fresh "out" in
  let Hout := fresh "Hout" in
  let Ho := fresh "Ho" in
  pose proof (loop_body_outcome host hFile fd result m) as Ho;
  remember (loop_body host hFile fd result m) as out eqn:Hout;
  destruct Ho.

Lemma in_firstn {A : Type} (x : A) (k : nat) (l : list A) :
  In x (firstn k l) -> In x l.
Proof.
  intros Hin. rewrite <- (firstn_skipn k l). apply in_or_app. now left.
Qed.

Lemma fits_false_length (fd : WIN32_FIND_DATAA) :
  (BUFFER_SIZE <= Z.of_nat (String.length (line_of fd)))%Z <->
  fits fd = false.
Proof. unfold fits. now rewrite Z.ltb_ge. Qed.

(** A name that [cFileName], an array of [MAX_PATH] characters, can hold
    gives a line that fits: at most 259 + 1 + 20 + 2 bytes. *)
Lemma find_data_names_fit (fd : WIN32_FIND_DATAA) :
  String.length (cFileName fd) < MAX_PATH -> fits fd = true.
Proof.
  intros Hname. apply fits_length. unfold line_of, format_line.
  rewrite !string_length_app.
  pose proof (fmt_llu_length (fileSize_of fd)) as Hdigits.
  unfold MAX_PATH in Hname. cbn [String.length TAB CR LF]. lia.
Qed.

(** C5. For an entry that is no directory and whose line has 512 bytes or
    more, the loop body calls nothing, leaves the state and [result] as
    they are, prints the line "Error al formatear la salida para el
    archivo: " followed by the name of the entry on the error stream and
    goes on to the loop condition, so that the loop continues with the
    next entry.  No run passes the line of such an entry to [WriteFile],
    and the exit status of a run is 0 when no fatal condition occurred. *)
Theorem line_too_long_skips_entry :
  forall (host : Host) (hFind hFile : HANDLE) (fd : WIN32_FIND_DATAA)
         (result : Z) (m : Machine),
    is_directory fd = false ->
    (BUFFER_SIZE <= Z.of_nat (String.length (line_of fd)))%Z ->
    loop_body host hFile fd result m
    = (Next, result, m,
       [EvStderr ("Error al formatear la salida para el archivo: "
                  ++ cFileName fd ++ LF)])
    /\ (forall next pending,
          do_while host hFind hFile (next :: pending) fd result m
          = let '(r, m', evs) :=
              do_while host hFind hFile pending next result m in
            (r, m',
             EvStderr ("Error al formatear la salida para el archivo: "
                       ++ cFileName fd ++ LF)
             :: EvFindNextFileA hFind (OsOk next) :: evs))
    /\ (forall disk,
          ~ In (line_of fd) (write_buffers (events_of (run host disk))))
    /\ (forall disk,
          fatal_occurred (events_of (run host disk)) = false ->
          exit_status (run host disk) = 0%Z).
Proof.
  intros host hFind hFile fd result m Hdir Hlong.
  pose proof (proj1 (fits_false_length fd) Hlong) as Hfits.
  assert (Hbody : loop_body host hFile fd result m
                  = (Next, result, m,
                     [EvStderr ("Error al formatear la salida para el archivo: "
                                ++ cFileName fd ++ LF)])).
  { body_outcome_of host hFile fd result m; try congruence. reflexivity. }
  split; [exact Hbody|]. split; [|split].
  - intros next pending.
    now rewrite (do_while_next _ _ _ _ _ _ _ _ _ _ _ Hbody).
  - intros disk Hin.
    destruct (run_buffers host disk) as [[k Hk] _]. rewrite Hk in Hin.
    apply in_firstn, in_map_iff in Hin as (fd' & Hline & Hin).
    apply filter_In in Hin as [_ Hw]. unfold writable in Hw.
    apply andb_true_iff in Hw as [_ Hfits'].
    unfold fits in Hfits, Hfits'. rewrite Hline in Hfits'. congruence.
  - intros disk Hfatal. now rewrite run_exit_status, Hfatal.
Qed.

Lemma line_too_long_skips_entry_witness :
  loop_body host_long_name (Handle 1) entry_long_name 0 fresh
  = (Next, 0%Z, fresh,
     [EvStderr ("Error al formatear la salida para el archivo: "
                ++ replicate 509 "x"%char ++ LF)])
  /\ exit_status (run host_long_name None) = 0%Z.
Proof.
  destruct (line_too_long_skips_entry host_long_name (Handle 2) (Handle 1)
              entry_long_name 0 fresh)
    as (Hbody & _ & _ & Hstatus).
  - reflexivity.
  - vm_compute. discriminate.
  - split; [exact Hbody|]. apply Hstatus. reflexivity.
Defined.

(** C6. For an entry that is no directory and whose line fits, when
    [WriteFile] succeeds with fewer bytes than offered, the loop body makes
    that one call, appends the bytes taken to the file, prints the warning
    "Advertencia: No se escribieron todos los bytes para " followed by the
    name of the entry, leaves [result] as it is and goes on to the loop
    condition, so that the loop continues with the next entry.  The call
    is not a fatal condition, and the exit status of a run is 0 when no
    fatal condition occurred. *)
Theorem short_write_is_not_fatal :
  forall (host : Host) (hFind hFile : HANDLE) (fd : WIN32_FIND_DATAA)
         (result : Z) (m : Machine) (room : nat),
    is_directory fd = false ->
    fits fd = true ->
    WriteFile_answer host (write_calls m) = OsOk room ->
    room < String.length (line_of fd) ->
    let call := EvWriteFile hFile (line_of fd) (OsOk (N.of_nat room)) in
    let warning :=
      EvStderr ("Advertencia: No se escribieron todos los bytes para "
                ++ cFileName fd ++ LF) in
    let m1 := after_write m (substring 0 room (line_of fd)) in
    loop_body host hFile fd result m = (Next, result, m1, [call; warning])
    /\ (forall next pending,
          do_while host hFind hFile (next :: pending) fd result m
          = let '(r, m', evs) :=
              do_while host hFind hFile pending next result m1 in
            (r, m',
             call :: warning :: EvFindNextFileA hFind (OsOk next) :: evs))
    /\ fatal_event call = false
    /\ short_write call = true
    /\ (forall disk,
          fatal_occurred (events_of (run host disk)) = false ->
          exit_status (run host disk) = 0%Z).
Proof.
  intros host hFind hFile fd result m room Hdir Hfits Hanswer Hroom
         call warning m1.
  assert (Hbody : loop_body host hFile fd result m
                  = (Next, result, m1, [call; warning])).
  { subst call warning m1.
    body_outcome_of host hFile fd result m; try congruence;
      assert (room0 = room) as -> by congruence; (reflexivity || lia). }
  split; [exact Hbody|]. split; [|split; [|split]].
  - intros next pending.
    now rewrite (do_while_next _ _ _ _ _ _ _ _ _ _ _ Hbody).
  - reflexivity.
  - subst call. cbn [short_write].
    apply negb_true_iff, N.eqb_neq. lia.
  - intros disk Hfatal. now rewrite run_exit_status, Hfatal.
Qed.

Lemma short_write_is_not_fatal_witness :
  loop_body host_short_writes (Handle 1) entry_a_txt 0 fresh
  = (Next, 0%Z, after_write fresh "a.t",
     [EvWriteFile (Handle 1) (line_of entry_a_txt) (OsOk 3%N);
      EvStderr ("Advertencia: No se escribieron todos los bytes para a.txt"
                ++ LF)])
  /\ exit_status (run host_short_writes None) = 0%Z.
Proof.
  destruct (short_write_is_not_fatal host_short_writes (Handle 2) (Handle 1)
              entry_a_txt 0 fresh 3)
    as (Hbody & _ & _ & _ & Hstatus).
  - reflexivity.
  - reflexivity.
  - reflexivity.
  - vm_compute. lia.
  - split; [exact Hbody|]. apply Hstatus. reflexivity.
Defined.

(** * Further properties of [main] *)

(** ** The discipline of the handles *)

Ltac split_body Hbody :=
  match type of Hbody with
  | loop_body ?host ?hFile ?fd ?result ?m = _ =>
      let Ho := fresh "Ho" in
      pose proof (loop_body_outcome host hFile fd result m) as Ho;
      rewrite Hbody in Ho; inversion Ho; subst; clear Ho
  end.

Lemma HANDLE_eqb_refl (h : HANDLE) : HANDLE_eqb h h = true.
Proof. destruct h; [reflexivity | apply Nat.eqb_refl]. Qed.

Lemma loop_body_well_used (host : Host) (hFile : HANDLE)
    (fd : WIN32_FIND_DATAA) (result : Z) (m : Machine)
    (c : Ctl) (result1 : Z) (m1 : Machine) (evs : list Event) :
  loop_body host hFile fd result m = (c, result1, m1, evs) ->
  forall st rest,
    handles_well_used (Some hFile) st (evs ++ rest)
    = handles_well_used (Some hFile) st rest.
Proof.
  intros Hbody st rest.
  split_body Hbody; cbn [app handles_well_used];
    rewrite ?HANDLE_eqb_refl; reflexivity.
Qed.

Lemma do_while_well_used (host : Host) (hFind hFile : HANDLE)
    (pending : list WIN32_FIND_DATAA) (fd : WIN32_FIND_DATAA)
    (result : Z) (m : Machine) :
  forall rest,
    handles_well_used (Some hFile) (FindOpen hFind) rest = true ->
    handles_well_used (Some hFile) (FindExhausted hFind) rest = true ->
    handles_well_used (Some hFile) (FindOpen hFind)
      (events_of (do_while host hFind hFile pending fd result m) ++ rest)
    = true.
Proof.
  apply do_while_ind with
    (P := fun _ _ _ _ o =>
      forall rest,
        handles_well_used (Some hFile) (FindOpen hFind) rest = true ->
        handles_well_used (Some hFile) (FindExhausted hFind) rest = true ->
        handles_well_used (Some hFile) (FindOpen hFind) (events_of o ++ rest)
        = true);
    unfold events_of; cbn [snd].
  - intros pending' fd' r m' r1 m1 evs Hbody rest Hopen _.
    now rewrite (loop_body_well_used _ _ _ _ _ _ _ _ _ Hbody).
  - intros fd' r m' r1 m1 evs Hbody rest _ Hdone.
    rewrite <- app_assoc, (loop_body_well_used _ _ _ _ _ _ _ _ _ Hbody).
    cbn [app handles_well_used]. now rewrite HANDLE_eqb_refl.
  - intros next pending' fd' r m' r1 m1 evs r2 m2 evs' Hbody _ IH rest
           Hopen Hdone.
    rewrite <- app_assoc, (loop_body_well_used _ _ _ _ _ _ _ _ _ Hbody).
    cbn [app handles_well_used]. rewrite HANDLE_eqb_refl. cbn [andb].
    now apply IH.
Qed.

(** X1. In every run the handles are used in order: [WriteFile] and
    [FindNextFileA] are called only with a handle that was obtained and
    is not yet released, [FindNextFileA] is not called again once it has
    reported the end of the listing, each release names the handle held,
    and no handle is held when the run ends. *)
Theorem handles_used_in_order :
  forall (host : Host) (disk : option string),
    handles_well_used None FindNone (events_of (run host disk)) = true.
Proof.
  intros host disk. run_cases host disk; project_outcome;
    cbn [app banner handles_well_used]; rewrite ?HANDLE_eqb_refl;
    try reflexivity.
  pose proof (do_while_well_used host (Handle idn) (Handle idf)
                (listing_rest host) first 0 fresh) as Hloop.
  rewrite Sloop in Hloop. change (events_of (r1, m1, evs)) with evs in Hloop.
  apply Hloop;
    rewrite finish_valid; cbv zeta; project_outcome;
    destruct (negb (last_error m1 =? ERROR_NO_MORE_FILES)%N);
    cbn [app handles_well_used]; rewrite !HANDLE_eqb_refl; cbn [andb];
    match goal with |- context [(?r =? 0)%Z] => destruct (r =? 0)%Z end;
    reflexivity.
Qed.

(** ** The standard output *)

(** X2. The standard output of a run consists of the four lines of the
    banner, followed by the success message when the exit status is 0 and
    by nothing otherwise; the success message, when printed, is the last
    thing the run does. *)
Theorem standard_output_of_a_run :
  forall (host : Host) (disk : option string),
    let o := run host disk in
    stdout_lines (events_of o)
    = (stdout_lines banner
       ++ (if (exit_status o =? 0)%Z then [msg_success] else []))%list
    /\ (exit_status o = 0%Z ->
        exists evs, events_of o = (evs ++ [EvStdout msg_success])%list).
Proof.
  intros host disk o. subst o.
  run_cases host disk; project_outcome; unfold stdout_lines;
    rewrite ?flat_map_app; cbn [flat_map app Z.eqb];
    try (split; [reflexivity | discriminate]).
  loop_facts do_while_events Sloop.
  rewrite (loop_events_projection _ _ _ evs) by
    (try exact Hfact; intros [] He; cbn in He; (contradiction || reflexivity)).
  rewrite finish_valid. cbv zeta. project_outcome.
  destruct (negb (last_error m1 =? ERROR_NO_MORE_FILES)%N);
    cbn [flat_map app Z.eqb]; [split; [reflexivity | discriminate]|].
  destruct (r1 =? 0)%Z eqn:Hr; cbn [flat_map app].
  - split; [reflexivity|]. intros _.
    exists (banner
            ++ [EvCreateDirectoryA TMP_DIRECTORY (CreateDirectoryA_answer host);
                EvCreateFileA OUTPUT_FILE (OsOk idf);
                EvFindFirstFileA (OsOk (idn, first))]
            ++ evs
            ++ [EvFindClose (Handle idn); EvCloseHandle (Handle idf)])%list.
    rewrite <- !app_assoc. reflexivity.
  - split; [reflexivity|]. intros Hz. rewrite Hz in Hr. discriminate.
Qed.

Lemma standard_output_of_a_run_witness :
  exists evs,
    events_of (run host_scenario None) = (evs ++ [EvStdout msg_success])%list.
Proof.
  destruct (standard_output_of_a_run host_scenario None) as [_ Hlast].
  apply Hlast. reflexivity.
Defined.

(** ** The size of a file *)

(** X3. The combination of the two halves of the size loses nothing: with
    both halves in 32 bits, the high half is the quotient and the low half
    the remainder of the size by 2^32, so that entries with equal sizes
    have equal halves. *)
Theorem file_size_keeps_both_halves :
  forall fd : WIN32_FIND_DATAA,
    (nFileSizeHigh fd < 2 ^ 32)%N -> (nFileSizeLow fd < 2 ^ 32)%N ->
    (fileSize_of fd / 2 ^ 32 = nFileSizeHigh fd)%N
    /\ (fileSize_of fd mod 2 ^ 32 = nFileSizeLow fd)%N
    /\ N.shiftr (fileSize_of fd) 32 = nFileSizeHigh fd.
Proof.
  intros fd Hh Hl.
  destruct (fileSize_of_value fd Hh Hl) as (_ & Hsum & _).
  assert (Hdiv : (fileSize_of fd / 2 ^ 32 = nFileSizeHigh fd)%N).
  { rewrite Hsum, N.div_add_l by discriminate.
    rewrite N.div_small by assumption. apply N.add_0_r. }
  repeat split.
  - exact Hdiv.
  - rewrite Hsum, N.add_comm, N.Div0.mod_add. now apply N.mod_small.
  - now rewrite N.shiftr_div_pow2.
Qed.

Lemma file_size_keeps_both_halves_witness :
  (fileSize_of entry_huge / 2 ^ 32 = 1)%N
  /\ (fileSize_of entry_huge mod 2 ^ 32 = 2)%N.
Proof.
  destruct (file_size_keeps_both_halves entry_huge) as (Hh & Hl & _).
  - reflexivity.
  - reflexivity.
  - split; [exact Hh | exact Hl].
Defined.

(** ** A failed creation of the output file *)

(** X4. When the directory is ready and [CreateFileA] fails, the run
    prints the banner, makes the two calls, prints one line that names the
    output path and carries the code, and ends with exit status 1: the
    enumeration is not started, no handle is released and the output path
    keeps its content. *)
Theorem failed_creation_of_the_output_file :
  forall (host : Host) (disk : option string) (code : DWORD),
    directory_ready host = true ->
    CreateFileA_answer host = OsError code ->
    run host disk
    = (1%Z,
       {| output_file := disk; last_error := code; write_calls := 0 |},
       (banner
        ++ [EvCreateDirectoryA TMP_DIRECTORY (CreateDirectoryA_answer host);
            EvCreateFileA OUTPUT_FILE (OsError code);
            EvStderr ("Error al crear el archivo C:\tmp\lista_sz: "
                      ++ fmt_lu code ++ LF)])%list).
Proof.
  intros host disk code Hready Hfile.
  run_cases host disk; try congruence.
  - rewrite (directory_fatal_not_ready host code0) in Hready by assumption.
    discriminate.
  - assert (code0 = code) as -> by congruence. reflexivity.
Qed.

Lemma failed_creation_of_the_output_file_witness :
  exit_status (run host_locked (Some "kept")) = 1%Z
  /\ file_after (run host_locked (Some "kept")) = Some "kept".
Proof.
  rewrite (failed_creation_of_the_output_file host_locked (Some "kept") 32)
    by reflexivity.
  split; reflexivity.
Defined.

(** ** The buffers passed to [WriteFile] *)

(** X5. Every buffer a run passes to [WriteFile] is the whole line of an
    entry of the listing that is no directory, name, tab, size, CR and LF,
    and is shorter than the 512 bytes of the formatting buffer: no
    truncated line is ever written. *)
Theorem written_buffers_are_whole_lines :
  forall (host : Host) (disk : option string) (data : string),
    In data (write_buffers (events_of (run host disk))) ->
    exists fd : WIN32_FIND_DATAA,
      In fd (entries_of host)
      /\ is_directory fd = false
      /\ data = cFileName fd ++ TAB ++ fmt_llu (fileSize_of fd) ++ CR ++ LF
      /\ (Z.of_nat (String.length data) < BUFFER_SIZE)%Z.
Proof.
  intros host disk data Hin.
  destruct (run_buffers host disk) as [[k Hk] _]. rewrite Hk in Hin.
  apply in_firstn, in_map_iff in Hin as (fd & <- & Hin).
  apply filter_In in Hin as [Hin Hw]. unfold writable in Hw.
  apply andb_true_iff in Hw as [Hdir Hfits].
  exists fd. repeat split.
  - exact Hin.
  - now apply negb_true_iff in Hdir.
  - unfold fits in Hfits. now apply Z.ltb_lt in Hfits.
Qed.

Lemma written_buffers_are_whole_lines_witness :
  exists fd : WIN32_FIND_DATAA,
    In fd (entries_of host_scenario)
    /\ is_directory fd = false
    /\ "a.txt" ++ TAB ++ "5" ++ CR ++ LF
       = cFileName fd ++ TAB ++ fmt_llu (fileSize_of fd) ++ CR ++ LF
    /\ (Z.of_nat (String.length ("a.txt" ++ TAB ++ "5" ++ CR ++ LF))
        < BUFFER_SIZE)%Z.
Proof.
  apply (written_buffers_are_whole_lines host_scenario None).
  vm_compute. tauto.
Defined.

(** ** Names that fit the find data *)

Lemma loop_body_no_format_error (host : Host) (hFile : HANDLE)
    (fd : WIN32_FIND_DATAA) (result : Z) (m : Machine)
    (c : Ctl) (result1 : Z) (m1 : Machine) (evs : list Event) :
  loop_body host hFile fd result m = (c, result1, m1, evs) ->
  fits fd = true ->
  existsb is_format_error evs = false.
Proof.
  intros Hbody Hfits. split_body Hbody; try reflexivity. congruence.
Qed.

Lemma do_while_no_format_error (host : Host) (hFind hFile : HANDLE)
    (pending : list WIN32_FIND_DATAA) (fd : WIN32_FIND_DATAA)
    (result : Z) (m : Machine) :
  (forall x, In x (fd :: pending) -> fits x = true) ->
  existsb is_format_error
    (events_of (do_while host hFind hFile pending fd result m)) = false.
Proof.
  apply do_while_ind with
    (P := fun pending fd _ _ o =>
      (forall x, In x (fd :: pending) -> fits x = true) ->
      existsb is_format_error (events_of o) = false);
    unfold events_of; cbn [snd].
  - intros pending' fd' r m' r1 m1 evs Hbody Hall.
    eapply loop_body_no_format_error; [exact Hbody|].
    apply Hall. now left.
  - intros fd' r m' r1 m1 evs Hbody Hall.
    rewrite existsb_app.
    rewrite (loop_body_no_format_error _ _ _ _ _ _ _ _ _ Hbody)
      by (apply Hall; now left).
    reflexivity.
  - intros next pending' fd' r m' r1 m1 evs r2 m2 evs' Hbody _ IH Hall.
    rewrite existsb_app.
    rewrite (loop_body_no_format_error _ _ _ _ _ _ _ _ _ Hbody)
      by (apply Hall; now left).
    cbn [existsb is_format_error orb]. apply IH.
    intros x Hx. apply Hall. now right.
Qed.

(** X6. When every name of the listing is one that [cFileName] can hold
    (fewer than [MAX_PATH] = 260 characters), every line fits the buffer
    and no run prints the formatting error of line 81: for the listings
    the find data can carry, the check of line 80 never fires. *)
Theorem names_of_find_data_never_overflow :
  forall (host : Host) (disk : option string),
    (forall fd, In fd (entries_of host) ->
                String.length (cFileName fd) < MAX_PATH) ->
    (forall fd, In fd (entries_of host) -> fits fd = true)
    /\ existsb is_format_error (events_of (run host disk)) = false.
Proof.
  intros host disk Hnames.
  assert (Hfits : forall fd, In fd (entries_of host) -> fits fd = true)
    by (intros fd Hin; apply find_data_names_fit; now apply Hnames).
  split; [exact Hfits|]. clear Hnames. revert Hfits.
  run_cases host disk; project_outcome; intros Hfits; try reflexivity.
  unfold entries_of in Hfits. rewrite Sfind in Hfits.
  rewrite !existsb_app.
  pose proof (do_while_no_format_error host (Handle idn) (Handle idf)
                (listing_rest host) first 0 fresh Hfits) as Hloop.
  rewrite Sloop in Hloop. change (events_of (r1, m1, evs)) with evs in Hloop.
  rewrite Hloop, finish_valid. cbv zeta. project_outcome.
  destruct (negb (last_error m1 =? ERROR_NO_MORE_FILES)%N);
    match goal with |- context [(?r =? 0)%Z] => destruct (r =? 0)%Z end;
    reflexivity.
Qed.

Lemma names_of_find_data_never_overflow_witness :
  existsb is_format_error (events_of (run host_scenario None)) = false.
Proof.
  apply (names_of_find_data_never_overflow host_scenario None).
  intros fd Hin.
  repeat (destruct Hin as [<-|Hin]; [vm_compute; lia|]).
  destruct Hin.
Defined.

(** ** Runs that print nothing on the error stream *)

Lemma stderr_lines_app (a b : list Event) :
  (stderr_lines (a ++ b) = stderr_lines a ++ stderr_lines b)%list.
Proof. apply flat_map_app. Qed.

Lemma loop_body_silent (host : Host) (hFile : HANDLE)
    (fd : WIN32_FIND_DATAA) (result : Z) (m : Machine)
    (c : Ctl) (result1 : Z) (m1 : Machine) (evs : list Event) :
  loop_body host hFile fd result m = (c, result1, m1, evs) ->
  stderr_lines evs = [] ->
  existsb write_failed evs = false
  /\ existsb short_write evs = false
  /\ writable fd = negb (is_directory fd).
Proof.
  intros Hbody Hsilent. unfold writable.
  split_body Hbody; try discriminate;
    repeat match goal with H : _ = _ :> bool |- _ => rewrite H end;
    repeat split; try reflexivity.
  cbn [existsb short_write]. now rewrite N.eqb_refl.
Qed.

Lemma do_while_silent (host : Host) (hFind hFile : HANDLE)
    (pending : list WIN32_FIND_DATAA) (fd : WIN32_FIND_DATAA)
    (result : Z) (m : Machine) :
  let o := do_while host hFind hFile pending fd result m in
  stderr_lines (events_of o) = [] ->
  existsb write_failed (events_of o) = false
  /\ existsb short_write (events_of o) = false
  /\ filter writable (fd :: pending)
     = filter (fun x => negb (is_directory x)) (fd :: pending).
Proof.
  cbv zeta.
  apply do_while_ind with
    (P := fun pending fd _ _ o =>
      stderr_lines (events_of o) = [] ->
      existsb write_failed (events_of o) = false
      /\ existsb short_write (events_of o) = false
      /\ filter writable (fd :: pending)
         = filter (fun x => negb (is_directory x)) (fd :: pending));
    unfold events_of; cbn [snd].
  - intros pending' fd' r m' r1 m1 evs Hbody Hsilent.
    destruct (loop_body_break _ _ _ _ _ _ _ _ Hbody) as (code & -> & _).
    discriminate.
  - intros fd' r m' r1 m1 evs Hbody Hsilent.
    rewrite stderr_lines_app in Hsilent.
    apply app_eq_nil in Hsilent as [Hsilent _].
    destruct (loop_body_silent _ _ _ _ _ _ _ _ _ Hbody Hsilent)
      as (Hf & Hs & Hw).
    rewrite !existsb_app, Hf, Hs. cbn [filter]. rewrite Hw.
    repeat split; reflexivity.
  - intros next pending' fd' r m' r1 m1 evs r2 m2 evs' Hbody _ IH Hsilent.
    rewrite stderr_lines_app in Hsilent.
    apply app_eq_nil in Hsilent as [Hsilent Hrest].
    destruct (loop_body_silent _ _ _ _ _ _ _ _ _ Hbody Hsilent)
      as (Hf & Hs & Hw).
    destruct (IH Hrest) as (Hf' & Hs' & Hw').
    rewrite !existsb_app, Hf, Hs.
    cbn [existsb write_failed short_write orb].
    repeat split; try assumption.
    change (fd' :: next :: pending') with ([fd'] ++ next :: pending')%list.
    rewrite !filter_app, Hw'. cbn [filter]. now rewrite Hw.
Qed.

(** X7. A run that prints nothing on the error stream is complete: its
    exit status is 0 and the output file is the concatenation of the
    lines of all entries that are no directories, in the order of the
    enumeration. *)
Theorem silent_run_is_complete :
  forall (host : Host) (disk : option string),
    stderr_lines (events_of (run host disk)) = [] ->
    exit_status (run host disk) = 0%Z
    /\ file_after (run host disk)
       = Some (concat_lines
                 (map line_of
                    (filter (fun fd => negb (is_directory fd))
                       (entries_of host)))).
Proof.
  intros host disk.
  pose proof (run_file host disk) as Hfile.
  pose proof (proj2 (run_buffers host disk)) as Hbuf.
  pose proof (run_exit_status host disk) as Hstatus.
  revert Hfile Hbuf Hstatus.
  run_cases host disk; project_outcome; intros Hfile Hbuf Hstatus Hsilent;
    rewrite ?stderr_lines_app in Hsilent;
    try (apply app_eq_nil in Hsilent as [_ Hsilent]; discriminate).
  apply app_eq_nil in Hsilent as [_ Hsilent].
  apply app_eq_nil in Hsilent as [_ Hsilent].
  apply app_eq_nil in Hsilent as [Hloop Hend].
  pose proof (do_while_silent host (Handle idn) (Handle idf)
                (listing_rest host) first 0 fresh) as Hfacts.
  cbv zeta in Hfacts. rewrite Sloop in Hfacts.
  change (events_of (r1, m1, evs)) with evs in Hfacts.
  destruct (Hfacts Hloop) as (Hf & Hs & Hw).
  assert (Hopen : file_opened host = true)
    by (now apply (file_opened_true host idf)).
  assert (Hsetup : setup_succeeds host = true)
    by (unfold setup_succeeds; now rewrite Hopen, Sfind).
  assert (Hquiet : forall f,
             (forall text, f (EvStderr text) = false) ->
             (forall h, f (EvFindClose h) = false) ->
             (forall h, f (EvCloseHandle h) = false) ->
             (forall text, f (EvStdout text) = false) ->
             (forall path r, f (EvCreateDirectoryA path r) = false) ->
             (forall path id, f (EvCreateFileA path (OsOk id)) = false) ->
             (forall r, f (EvFindFirstFileA r) = false) ->
             existsb f evs = false ->
             existsb f
               (banner
                ++ [EvCreateDirectoryA TMP_DIRECTORY
                      (CreateDirectoryA_answer host);
                    EvCreateFileA OUTPUT_FILE (OsOk idf);
                    EvFindFirstFileA (OsOk (idn, first))]
                ++ evs
                ++ events_of (finish (Handle idn) (Handle idf) r1 m1))
             = false).
  { intros f H1 H2 H3 H4 H5 H6 H7 H8.
    rewrite !existsb_app, H8, finish_valid. cbv zeta. project_outcome.
    cbn [banner existsb]. rewrite !H4, H5, H6, H7. cbn [orb].
    destruct (negb (last_error m1 =? ERROR_NO_MORE_FILES)%N);
      match goal with |- context [(?r =? 0)%Z] => destruct (r =? 0)%Z end;
      cbn [app existsb]; rewrite ?H1, ?H2, ?H3, ?H4; reflexivity. }
  assert (Hfailed : existsb write_failed
                      (banner
                       ++ [EvCreateDirectoryA TMP_DIRECTORY
                             (CreateDirectoryA_answer host);
                           EvCreateFileA OUTPUT_FILE (OsOk idf);
                           EvFindFirstFileA (OsOk (idn, first))]
                       ++ evs
                       ++ events_of (finish (Handle idn) (Handle idf) r1 m1))
                    = false)
    by (apply Hquiet; (reflexivity || assumption)).
  assert (Hshort : existsb short_write
                     (banner
                      ++ [EvCreateDirectoryA TMP_DIRECTORY
                            (CreateDirectoryA_answer host);
                          EvCreateFileA OUTPUT_FILE (OsOk idf);
                          EvFindFirstFileA (OsOk (idn, first))]
                      ++ evs
                      ++ events_of (finish (Handle idn) (Handle idf) r1 m1))
                   = false)
    by (apply Hquiet; (reflexivity || assumption)).
  split.
  - rewrite finish_status.
    rewrite finish_valid in Hend. cbv zeta in Hend.
    change (events_of (?a, ?b, ?c)) with c in Hend.
    destruct (negb (last_error m1 =? ERROR_NO_MORE_FILES)%N);
      [discriminate|].
    loop_facts do_while_end Sloop.
    destruct Hfact as [(Hyes & _)|(_ & Hr & _)]; [congruence | exact Hr].
  - rewrite Hfile, Hopen.
    rewrite (written_bytes_complete _ Hfailed Hshort).
    rewrite (Hbuf Hsetup Hfailed).
    unfold entries_of. rewrite Sfind, Hw. reflexivity.
Qed.

Lemma silent_run_is_complete_witness :
  exit_status (run host_scenario (Some "old")) = 0%Z
  /\ file_after (run host_scenario (Some "old"))
     = Some ("a.txt" ++ TAB ++ "5" ++ CR ++ LF).
Proof.
  destruct (silent_run_is_complete host_scenario (Some "old") eq_refl)
    as [Hstatus Hfile].
  split; [exact Hstatus|]. rewrite Hfile. reflexivity.
Defined.

(** ** Failed calls and their reports *)

Ltac same_text :=
  match goal with
  | |- context [String.eqb ?a ?b] =>
      replace (String.eqb a b) with true
        by (symmetry; apply String.eqb_eq; reflexivity)
  end; try reflexivity; try assumption.

Lemma loop_body_reported (host : Host) (hFile : HANDLE)
    (fd : WIN32_FIND_DATAA) (result : Z) (m : Machine)
    (c : Ctl) (result1 : Z) (m1 : Machine) (evs : list Event) :
  loop_body host hFile fd result m = (c, result1, m1, evs) ->
  forall rest, failures_reported (evs ++ rest) = failures_reported rest.
Proof.
  intros Hbody rest.
  split_body Hbody; cbn [app failures_reported report_of]; try reflexivity.
  same_text.
Qed.

Lemma do_while_reported (host : Host) (hFind hFile : HANDLE)
    (pending : list WIN32_FIND_DATAA) (fd : WIN32_FIND_DATAA)
    (result : Z) (m : Machine) :
  let o := do_while host hFind hFile pending fd result m in
  forall rest,
    failures_reported rest = true ->
    (last_error (machine_of o) = FindNextFileA_end host ->
     FindNextFileA_end host = ERROR_NO_MORE_FILES
     \/ exists rest',
         rest = EvStderr (msg_enumeration (FindNextFileA_end host)) :: rest') ->
    failures_reported (events_of o ++ rest) = true.
Proof.
  cbv zeta.
  apply do_while_ind with
    (P := fun _ _ _ _ o =>
      forall rest,
        failures_reported rest = true ->
        (last_error (machine_of o) = FindNextFileA_end host ->
         FindNextFileA_end host = ERROR_NO_MORE_FILES
         \/ exists rest',
             rest = EvStderr (msg_enumeration (FindNextFileA_end host))
                    :: rest') ->
        failures_reported (events_of o ++ rest) = true);
    unfold events_of, machine_of; cbn [fst snd].
  - intros pending' fd' r m' r1 m1 evs Hbody rest Hrest _.
    now rewrite (loop_body_reported _ _ _ _ _ _ _ _ _ Hbody).
  - intros fd' r m' r1 m1 evs Hbody rest Hrest Hend.
    rewrite <- app_assoc, (loop_body_reported _ _ _ _ _ _ _ _ _ Hbody).
    cbn [app failures_reported report_of].
    destruct (FindNextFileA_end host =? ERROR_NO_MORE_FILES)%N eqn:Hcode;
      [exact Hrest|].
    destruct (Hend eq_refl) as [Heq|[rest' ->]].
    + rewrite Heq in Hcode. discriminate.
    + same_text.
  - intros next pending' fd' r m' r1 m1 evs r2 m2 evs' Hbody _ IH rest
           Hrest Hend.
    rewrite <- app_assoc, (loop_body_reported _ _ _ _ _ _ _ _ _ Hbody).
    cbn [app failures_reported report_of]. now apply IH.
Qed.

Lemma report_of_directory_ready (host : Host) (path : string) :
  directory_ready host = true ->
  report_of (EvCreateDirectoryA path (CreateDirectoryA_answer host)) = None.
Proof.
  unfold directory_ready. destruct (CreateDirectoryA_answer host) as [code|u];
    cbn [report_of]; [intros ->|]; reflexivity.
Qed.

(** X8. In every run each failed call that matters (a failed creation of
    the directory other than "already exists", a failed [CreateFileA],
    [FindFirstFileA] or [WriteFile], an end of the listing with a code
    other than [ERROR_NO_MORE_FILES]) is directly followed by its own
    message on the error stream, with the code of that call. *)
Theorem failed_calls_are_reported_at_once :
  forall (host : Host) (disk : option string),
    failures_reported (events_of (run host disk)) = true.
Proof.
  intros host disk.
  assert (Hbanner : forall rest,
             failures_reported (banner ++ rest) = failures_reported rest)
    by reflexivity.
  run_cases host disk; project_outcome; rewrite Hbanner;
    cbn [app failures_reported].
  - cbn [report_of]. rewrite Scode. same_text.
  - rewrite report_of_directory_ready by assumption.
    cbn [report_of]. same_text.
  - rewrite report_of_directory_ready by assumption.
    cbn [report_of]. same_text.
  - rewrite report_of_directory_ready by assumption.
    cbn [report_of].
    pose proof (do_while_reported host (Handle idn) (Handle idf)
                  (listing_rest host) first 0 fresh) as Hloop.
    cbv zeta in Hloop. rewrite Sloop in Hloop.
    change (events_of (r1, m1, evs)) with evs in Hloop.
    change (machine_of (r1, m1, evs)) with m1 in Hloop.
    apply Hloop; rewrite finish_valid; cbv zeta; project_outcome.
    + destruct (negb (last_error m1 =? ERROR_NO_MORE_FILES)%N);
        match goal with |- context [(?r =? 0)%Z] => destruct (r =? 0)%Z end;
        reflexivity.
    + intros Hend. rewrite Hend.
      destruct (FindNextFileA_end host =? ERROR_NO_MORE_FILES)%N eqn:Hcode.
      * left. now apply N.eqb_eq.
      * right. cbn [negb app]. eexists. reflexivity.
Qed.

(** ** Directories in the listing *)

Lemma do_while_tail (host : Host) (hFind hFile : HANDLE)
    (pending : list WIN32_FIND_DATAA) (fd : WIN32_FIND_DATAA)
    (result : Z) (m : Machine) :
  do_while host hFind hFile pending fd result m
  = let '(c, result1, m1, evs) := loop_body host hFile fd result m in
    match c with
    | Break => (result1, m1, evs)
    | Next =>
        let '(result2, m2, evs') :=
          loop_tail host hFind hFile pending result1 m1 in
        (result2, m2, (evs ++ evs')%list)
    end.
Proof.
  destruct pending as [|next pending]; simpl;
    destruct (loop_body host hFile fd result m) as [[[[|] r1] m1] evs];
    try reflexivity.
  destruct (do_while host hFind hFile pending next r1 m1) as [[r2 m2] evs'].
  reflexivity.
Qed.

Lemma loop_body_skips_directory (host : Host) (hFile : HANDLE)
    (fd : WIN32_FIND_DATAA) (result : Z) (m : Machine) :
  is_directory fd = true ->
  loop_body host hFile fd result m = (Next, result, m, []).
Proof. intros Hdir. unfold loop_body. now rewrite Hdir. Qed.

Lemma without_yields_app (a b : list Event) :
  (without_yields (a ++ b) = without_yields a ++ without_yields b)%list.
Proof. apply filter_app. Qed.

(** The loop condition gives the same result, state and calls, apart from
    the entries given, whether or not the directories are in the listing. *)
Lemma loop_tail_without_directories (host : Host) (hFind hFile : HANDLE)
    (pending : list WIN32_FIND_DATAA) :
  forall (result : Z) (m : Machine),
    let o := loop_tail host hFind hFile pending result m in
    let o' := loop_tail host hFind hFile
                (filter (fun fd => negb (is_directory fd)) pending) result m in
    exit_status o' = exit_status o
    /\ machine_of o' = machine_of o
    /\ without_yields (events_of o') = without_yields (events_of o).
Proof.
  induction pending as [|next pending IH]; intros result m; cbv zeta.
  - repeat split; reflexivity.
  - cbn [filter]. destruct (is_directory next) eqn:Hdir; cbn [negb].
    + destruct (IH result m) as (Hs & Hm & He). cbv zeta in Hs, Hm, He.
      cbn [loop_tail]. rewrite do_while_tail.
      rewrite (loop_body_skips_directory host hFile next result m Hdir).
      destruct (loop_tail host hFind hFile pending result m)
        as [[r2 m2] evs'].
      cbn [app]. unfold exit_status, machine_of, events_of in *.
      cbn [fst snd] in *. repeat split; assumption.
    + cbn [loop_tail]. rewrite !do_while_tail.
      destruct (loop_body host hFile next result m)
        as [[[[|] r1] m1] evs].
      * destruct (IH r1 m1) as (Hs & Hm & He). cbv zeta in Hs, Hm, He.
        destruct (loop_tail host hFind hFile pending r1 m1)
          as [[r2 m2] evs'].
        destruct (loop_tail host hFind hFile
                    (filter (fun fd => negb (is_directory fd)) pending) r1 m1)
          as [[r2' m2'] evs''].
        unfold exit_status, machine_of, events_of in *.
        cbn [fst snd] in *. subst r2' m2'.
        repeat split.
        cbn [without_yields filter is_yield negb].
        fold (without_yields (evs ++ evs'')).
        fold (without_yields (evs ++ evs')).
        rewrite !without_yields_app. now rewrite He.
      * repeat split; reflexivity.
Qed.

Lemma do_while_without_directories_host (host : Host) (hFind hFile : HANDLE)
    (pending : list WIN32_FIND_DATAA) :
  forall (fd : WIN32_FIND_DATAA) (result : Z) (m : Machine),
    do_while (without_directories host) hFind hFile pending fd result m
    = do_while host hFind hFile pending fd result m.
Proof.
  induction pending as [|next pending IH]; intros fd result m; simpl;
    change (loop_body (without_directories host) hFile fd result m)
      with (loop_body host hFile fd result m);
    destruct (loop_body host hFile fd result m) as [[[[|] r1] m1] evs];
    try reflexivity.
  now rewrite IH.
Qed.

(** X9. Directories after the first entry of the listing are invisible:
    with them taken out of the listing, a run has the same exit status,
    the same final state and output file, and the same calls and printed
    lines, apart from the calls of [FindNextFileA] that gave an entry. *)
Theorem directories_are_invisible :
  forall (host : Host) (disk : option string),
    let o := run host disk in
    let o' := run (without_directories host) disk in
    exit_status o' = exit_status o
    /\ machine_of o' = machine_of o
    /\ without_yields (events_of o') = without_yields (events_of o).
Proof.
  intros host disk. cbv zeta.
  assert (Henum : forall hFile result m,
             let e := enumerate host hFile result m in
             let e' := enumerate (without_directories host) hFile result m in
             exit_status e' = exit_status e
             /\ machine_of e' = machine_of e
             /\ without_yields (events_of e')
                = without_yields (events_of e)).
  { intros hFile result m. cbv zeta. unfold enumerate.
    cbn [without_directories FindFirstFileA_answer listing_rest].
    destruct (FindFirstFileA_answer host) as [code|[idn first]];
      [repeat split; reflexivity|].
    rewrite do_while_without_directories_host, !do_while_tail.
    destruct (loop_body host hFile first result m) as [[[[|] r1] m1] evs].
    - destruct (loop_tail_without_directories host (Handle idn) hFile
                  (listing_rest host) r1 m1) as (Hs & Hm & He).
      cbv zeta in Hs, Hm, He.
      destruct (loop_tail host (Handle idn) hFile (listing_rest host) r1 m1)
        as [[r2 m2] evs'].
      destruct (loop_tail host (Handle idn) hFile
                  (filter (fun fd => negb (is_directory fd))
                     (listing_rest host)) r1 m1)
        as [[r2' m2'] evs''].
      unfold exit_status, machine_of, events_of in Hs, Hm, He.
      cbn [fst snd] in Hs, Hm, He. subst r2' m2'.
      destruct (finish (Handle idn) hFile r2 m2) as [[r3 m3] evs3].
      unfold exit_status, machine_of, events_of. cbn [fst snd].
      repeat split.
      cbn [without_yields filter is_yield negb].
      fold (without_yields ((evs ++ evs'') ++ evs3)).
      fold (without_yields ((evs ++ evs') ++ evs3)).
      rewrite !without_yields_app. now rewrite He.
    - repeat split; reflexivity. }
  unfold run, main, CreateDirectoryA, open_output, CreateFileA.
  cbn [without_directories CreateDirectoryA_answer CreateFileA_answer].
  destruct (CreateDirectoryA_answer host) as [code|[]];
    cbn [negb GetLastError last_error set_last_error boot].
  - destruct (negb (code =? ERROR_ALREADY_EXISTS)%N);
      [repeat split; reflexivity|].
    destruct (CreateFileA_answer host) as [code'|idf]; cbn [is_invalid];
      [repeat split; reflexivity|].
    match goal with
    | |- context [enumerate host ?h ?r ?m] =>
        destruct (Henum h r m) as (Hs & Hm & He); cbv zeta in Hs, Hm, He;
        destruct (enumerate host h r m) as [[r2 m2] evs2];
        destruct (enumerate (without_directories host) h r m)
          as [[r2' m2'] evs2']
    end.
    unfold exit_status, machine_of, events_of in *. cbn [fst snd] in *.
    subst r2' m2'. repeat split.
    rewrite !without_yields_app. f_equal.
    cbn [without_yields filter is_yield negb].
    fold (without_yields evs2'). fold (without_yields evs2). now rewrite He.
  - destruct (CreateFileA_answer host) as [code'|idf]; cbn [is_invalid];
      [repeat split; reflexivity|].
    match goal with
    | |- context [enumerate host ?h ?r ?m] =>
        destruct (Henum h r m) as (Hs & Hm & He); cbv zeta in Hs, Hm, He;
        destruct (enumerate host h r m) as [[r2 m2] evs2];
        destruct (enumerate (without_directories host) h r m)
          as [[r2' m2'] evs2']
    end.
    unfold exit_status, machine_of, events_of in *. cbn [fst snd] in *.
    subst r2' m2'. repeat split.
    rewrite !without_yields_app. f_equal.
    cbn [without_yields filter is_yield negb].
    fold (without_yields evs2'). fold (without_yields evs2). now rewrite He.
Qed.

(** ** The entries visited *)

Lemma loop_body_yields_nothing (host : Host) (hFile : HANDLE)
    (fd : WIN32_FIND_DATAA) (result : Z) (m : Machine)
    (c : Ctl) (result1 : Z) (m1 : Machine) (evs : list Event) :
  loop_body host hFile fd result m = (c, result1, m1, evs) ->
  yielded evs = [].
Proof. intros Hbody. split_body Hbody; reflexivity. Qed.

Lemma do_while_yielded (host : Host) (hFind hFile : HANDLE)
    (pending : list WIN32_FIND_DATAA) (fd : WIN32_FIND_DATAA)
    (result : Z) (m : Machine) :
  let o := do_while host hFind hFile pending fd result m in
  (exists k, yielded (events_of o) = firstn k pending)
  /\ (existsb write_failed (events_of o) = false ->
      yielded (events_of o) = pending).
Proof.
  cbv zeta.
  apply do_while_ind with
    (P := fun pending _ _ _ o =>
      (exists k, yielded (events_of o) = firstn k pending)
      /\ (existsb write_failed (events_of o) = false ->
          yielded (events_of o) = pending));
    unfold events_of, yielded; cbn [snd].
  - intros pending' fd' r m' r1 m1 evs Hbody.
    destruct (loop_body_break _ _ _ _ _ _ _ _ Hbody) as (code & -> & _).
    split; [exists 0; reflexivity | discriminate].
  - intros fd' r m' r1 m1 evs Hbody.
    rewrite flat_map_app.
    rewrite (loop_body_yields_nothing _ _ _ _ _ _ _ _ _ Hbody
             : flat_map _ evs = []).
    split; [exists 0; reflexivity | reflexivity].
  - intros next pending' fd' r m' r1 m1 evs r2 m2 evs' Hbody _ [[k Hk] IH].
    rewrite flat_map_app.
    rewrite (loop_body_yields_nothing _ _ _ _ _ _ _ _ _ Hbody
             : flat_map _ evs = []).
    cbn [flat_map app]. split.
    + exists (S k). cbn [firstn]. now rewrite Hk.
    + rewrite existsb_app. cbn [existsb write_failed orb].
      intros Hno. apply orb_false_iff in Hno as [_ Hno].
      now rewrite IH.
Qed.

(** X10. [FindNextFileA] gives the entries of the listing in the order of
    the host, each at most once; a run that ends with exit status 0 has
    been given all of them, so that the loop has seen the whole listing. *)
Theorem whole_listing_seen_on_success :
  forall (host : Host) (disk : option string),
    let o := run host disk in
    (exists k, yielded (events_of o) = firstn k (listing_rest host))
    /\ (exit_status o = 0%Z -> yielded (events_of o) = listing_rest host).
Proof.
  intros host disk o. subst o.
  run_cases host disk; project_outcome;
    try (split; [exists 0; reflexivity | discriminate]).
  unfold yielded. rewrite !flat_map_app.
  cbn [banner flat_map app].
  assert (Hfinish : flat_map
                      (fun e => match e with
                                | EvFindNextFileA _ (OsOk fd) => [fd]
                                | _ => []
                                end)
                      (events_of (finish (Handle idn) (Handle idf) r1 m1))
                    = []).
  { rewrite finish_valid. cbv zeta. project_outcome.
    destruct (negb (last_error m1 =? ERROR_NO_MORE_FILES)%N);
      match goal with |- context [(?r =? 0)%Z] => destruct (r =? 0)%Z end;
      reflexivity. }
  rewrite Hfinish, app_nil_r.
  loop_facts do_while_yielded Sloop. unfold yielded in Hfact.
  destruct Hfact as [Hk Hall]. split; [exact Hk|].
  rewrite finish_status. intros Hzero. apply Hall.
  loop_facts do_while_end Sloop.
  destruct Hfact as [(_ & -> & _)|(Hno & _)]; [|exact Hno].
  destruct (negb (last_error m1 =? ERROR_NO_MORE_FILES)%N); discriminate.
Qed.

Lemma whole_listing_seen_on_success_witness :
  yielded (events_of (run host_scenario None))
  = [entry_dotdot; entry_a_txt; entry_sub].
Proof.
  destruct (whole_listing_seen_on_success host_scenario None) as [_ Hall].
  rewrite Hall; reflexivity.
Defined.

(** ** The last-error code *)

(** X11. The program never reads a last-error code that it did not just
    provoke: whatever the code is when [main] starts, the exit status, the
    final state, the calls and the printed lines are the same, because
    every [GetLastError] follows a call that failed and set the code. *)
Theorem stale_error_code_is_never_read :
  forall (host : Host) (m : Machine) (code : DWORD),
    main host (set_last_error code m) = main host m.
Proof.
  intros host m code. unfold main, CreateDirectoryA.
  destruct (CreateDirectoryA_answer host) as [c|[]];
    cbn [negb GetLastError last_error set_last_error output_file write_calls].
  - change {| output_file := output_file m; last_error := c;
              write_calls := write_calls m |} with (set_last_error c m).
    reflexivity.
  - change {| output_file := output_file m; last_error := code;
              write_calls := write_calls m |} with (set_last_error code m).
    now rewrite open_output_last_error.
Qed.
